(** * NoteBox: the note table, the procedure [spNoteCreate], the service
    adapter [noteCreate] and the controller [postHandler].

    The development follows the layers of the repository:
    - the T-SQL schema [functional].[note] and the stored procedure
      [functional].[spNoteCreate];
    - utils/database ([dbRequest]) and services/note ([noteCreate]);
    - utils/response ([successResponse], [errorResponse]) and the controller
      api/v1/internal/note ([postHandler]).

    Conventions of the embedding.
    - An INTEGER value is a [Z]; a nullable value is an [option].
    - An NVARCHAR value and a JavaScript string are both a [string]: one
      character of the model stands for one UTF-16 code unit.
    - A DATETIME2 value is a [Z] (a count of ticks).
    - A table is the list of its rows, oldest first. *)

From Stdlib Require Import ZArith List String Ascii Bool Lia QArith Sorted.
Import ListNotations.
Local Open Scope string_scope.
Local Open Scope Z_scope.

(* ================================================================== *)
(** ** T-SQL scalar functions used by the procedure *)
(* ================================================================== *)

(** LTRIM and RTRIM remove the space character (code 32) only. *)
Definition is_space (c : ascii) : bool := Ascii.eqb c " "%char.

Fixpoint LTRIM (s : string) : string :=
  match s with
  | String c r => if is_space c then LTRIM r else s
  | EmptyString => EmptyString
  end.

Fixpoint RTRIM (s : string) : string :=
  match s with
  | String c r =>
      match RTRIM r with
      | EmptyString => if is_space c then EmptyString else String c EmptyString
      | r' => String c r'
      end
  | EmptyString => EmptyString
  end.

(** LEN counts the characters of its argument without the trailing spaces. *)
Definition LEN (s : string) : Z := Z.of_nat (String.length (RTRIM s)).

(** Comparison of two character values with [=]: the shorter one is padded
    with spaces, so trailing spaces never distinguish two values. *)
Definition sql_string_eq (a b : string) : bool := String.eqb (RTRIM a) (RTRIM b).

(** Conversion of an argument to a parameter declared NVARCHAR(n): a longer
    value is cut to its first [n] characters, without any error. *)
Definition nvarchar (n : nat) (s : string) : string := substring 0 n s.

(** The largest INTEGER. *)
Definition INT_MAX : Z := 2147483647.

(* ================================================================== *)
(** ** Schema *)
(* ================================================================== *)

(** A row of [security].[user]. The table is declared outside the files at
    hand; these are the three columns the procedure reads. *)
Record userRow := mkUser {
  usr_idUser : Z;
  usr_idAccount : Z;
  usr_deleted : bool
}.

(** A row of [functional].[note], column by column. *)
Record noteRow := mkNote {
  nt_idNote : Z;
  nt_idAccount : Z;
  nt_idUser : Z;
  nt_title : string;
  nt_content : string;
  nt_dateCreated : Z;
  nt_dateModified : Z;
  nt_deleted : bool
}.

(** The store: [account] holds the keys of [subscription].[account] (the
    target of fkNote_Account), [user] the rows of [security].[user], [note]
    the rows of [functional].[note], and [noteIdentity] the last value the
    IDENTITY(1, 1) column of [note] handed out (0 before the first one). *)
Record database := mkDb {
  account : list Z;
  user : list userRow;
  note : list noteRow;
  noteIdentity : Z
}.

(** An error raised by a statement: its number and its message. *)
Record sqlError := mkErr {
  number : Z;
  message : string
}.

(** The state of one execution: the store, the tables as they were when the
    open transaction began, and the value SCOPE_IDENTITY() returns. *)
Record session := mkSession {
  data : database;
  tran : option database;
  scopeIdentity : option Z
}.

(* ================================================================== *)
(** ** Statements: state passing with errors *)
(* ================================================================== *)

(** A statement runs from a session and leaves a session, whether it ends
    normally or raises. *)
Definition Exec (A : Type) : Type := session -> (sqlError + A) * session.

Definition ret {A} (a : A) : Exec A := fun s => (inr a, s).

Definition bind {A B} (m : Exec A) (k : A -> Exec B) : Exec B :=
  fun s =>
    match m s with
    | (inl e, s') => (inl e, s')
    | (inr a, s') => k a s'
    end.

Notation "x <- m ;; k" := (bind m (fun x => k))
  (at level 61, m at next level, right associativity).
Notation "m ;; k" := (bind m (fun _ => k))
  (at level 61, right associativity).

(** [THROW number, message, state]. *)
Definition THROW {A} (n : Z) (msg : string) : Exec A :=
  fun s => (inl (mkErr n msg), s).

(** [THROW] without arguments inside a CATCH block: the caught error again. *)
Definition RETHROW {A} (e : sqlError) : Exec A := fun s => (inl e, s).

(** [IF (c) BEGIN stmt END]. *)
Definition IF_ (c : bool) (stmt : Exec unit) : Exec unit :=
  if c then stmt else ret tt.

(** [BEGIN TRY body END TRY BEGIN CATCH handler END CATCH]: the handler runs
    from the session the failing statement left. *)
Definition TRY_CATCH {A} (body : Exec A) (handler : sqlError -> Exec A) : Exec A :=
  fun s =>
    match body s with
    | (inl e, s') => handler e s'
    | (inr a, s') => (inr a, s')
    end.

Definition BEGIN_TRAN : Exec unit :=
  fun s => (inr tt, mkSession (data s) (Some (data s)) (scopeIdentity s)).

Definition COMMIT_TRAN : Exec unit :=
  fun s =>
    match tran s with
    | Some _ => (inr tt, mkSession (data s) None (scopeIdentity s))
    | None => (inl (mkErr 3902 "The COMMIT TRANSACTION request has no corresponding BEGIN TRANSACTION."), s)
    end.

(** ROLLBACK restores the rows of every table; identity values handed out in
    the meantime are not given back. *)
Definition ROLLBACK_TRAN : Exec unit :=
  fun s =>
    match tran s with
    | Some old =>
        (inr tt,
         mkSession (mkDb (account old) (user old) (note old) (noteIdentity (data s)))
                   None (scopeIdentity s))
    | None => (inl (mkErr 3903 "The ROLLBACK TRANSACTION request has no corresponding BEGIN TRANSACTION."), s)
    end.

(** [SCOPE_IDENTITY()]. *)
Definition SCOPE_IDENTITY : Exec (option Z) := fun s => (inr (scopeIdentity s), s).

(** The clock a procedure call reads. *)
Record sqlEnv := mkSqlEnv {
  GETUTCDATE : Z
}.

(* ------------------------------------------------------------------ *)
(** *** INSERT INTO [functional].[note] *)

(** The constraints of the table, checked on the candidate row: NOT NULL on
    every column, pkNote, fkNote_Account, fkNote_User. *)
Definition pkNote_violation (db : database) (id : Z) : bool :=
  existsb (fun r => nt_idNote r =? id) (note db).

Definition fkNote_Account_violation (db : database) (a : Z) : bool :=
  negb (existsb (fun k => k =? a) (account db)).

Definition fkNote_User_violation (db : database) (u : Z) : bool :=
  negb (existsb (fun r => usr_idUser r =? u) (user db)).

Definition set_identity (db : database) (id : Z) : database :=
  mkDb (account db) (user db) (note db) id.

Definition add_note (db : database) (r : noteRow) : database :=
  mkDb (account db) (user db) (note db ++ [r]) (noteIdentity db).

(** The INSERT of the procedure. The identity value is taken first (and is
    spent even when a constraint then rejects the row); the statement raises
    when the identity leaves the INTEGER range or a constraint is violated. *)
Definition INSERT_note (idAccount idUser : option Z) (title content : option string)
    (dateCreated dateModified : Z) (deleted : bool) : Exec unit :=
  fun s =>
    let id := noteIdentity (data s) + 1 in
    if INT_MAX <? id then
      (inl (mkErr 8115 "Arithmetic overflow error converting IDENTITY to data type int."), s)
    else
      let db := set_identity (data s) id in
      let s1 := mkSession db (tran s) (scopeIdentity s) in
      match idAccount, idUser, title, content with
      | Some a, Some u, Some t, Some c =>
          if pkNote_violation db id then
            (inl (mkErr 2627 "Violation of PRIMARY KEY constraint 'pkNote'."), s1)
          else if fkNote_Account_violation db a then
            (inl (mkErr 547 "The INSERT statement conflicted with the FOREIGN KEY constraint 'fkNote_Account'."), s1)
          else if fkNote_User_violation db u then
            (inl (mkErr 547 "The INSERT statement conflicted with the FOREIGN KEY constraint 'fkNote_User'."), s1)
          else
            (inr tt,
             mkSession (add_note db (mkNote id a u t c dateCreated dateModified deleted))
                       (tran s) (Some id))
      | _, _, _, _ =>
          (inl (mkErr 515 "Cannot insert the value NULL into a column of table 'note'."), s1)
      end.

(* ================================================================== *)
(** ** [functional].[spNoteCreate] *)
(* ================================================================== *)

Definition is_null {A} (x : option A) : bool :=
  match x with None => true | Some _ => false end.

(** [LTRIM(RTRIM(x)) = ''] ; UNKNOWN (here [false]) on NULL. *)
Definition trimmed_is_empty (x : option string) : bool :=
  match x with
  | Some v => sql_string_eq (LTRIM (RTRIM v)) ""
  | None => false
  end.

(** [LEN(x) > 255] ; UNKNOWN on NULL. *)
Definition len_exceeds_255 (x : option string) : bool :=
  match x with
  | Some v => 255 <? LEN v
  | None => false
  end.

(** The row predicate of the EXISTS query on [security].[user]; a comparison
    with a NULL parameter is UNKNOWN and selects nothing. *)
Definition user_matches (idUser idAccount : option Z) (usr : userRow) : bool :=
  match idUser, idAccount with
  | Some u, Some a =>
      (usr_idUser usr =? u) && (usr_idAccount usr =? a) && negb (usr_deleted usr)
  | _, _ => false
  end.

Definition EXISTS_user (idUser idAccount : option Z) : Exec bool :=
  fun s => (inr (existsb (user_matches idUser idAccount) (user (data s))), s).

(** The body of the procedure, statement by statement, on the values of its
    parameters. The result is the column [idNote] of the one row it selects. *)
Definition spNoteCreate_body (env : sqlEnv)
    (idAccount idUser : option Z) (title content : option string) : Exec (option Z) :=
  IF_ (is_null idAccount) (THROW 51000 "idAccountRequired") ;;
  IF_ (is_null idUser) (THROW 51000 "idUserRequired") ;;
  IF_ (is_null title || trimmed_is_empty title) (THROW 51000 "titleRequired") ;;
  IF_ (is_null content || trimmed_is_empty content) (THROW 51000 "contentRequired") ;;
  IF_ (len_exceeds_255 title) (THROW 51000 "titleExceedsMaxLength") ;;
  found <- EXISTS_user idUser idAccount ;;
  IF_ (negb found) (THROW 51000 "userDoesNotBelongToAccount") ;;
  TRY_CATCH
    (BEGIN_TRAN ;;
     let currentDateTime := GETUTCDATE env in
     INSERT_note idAccount idUser title content currentDateTime currentDateTime false ;;
     idNote <- SCOPE_IDENTITY ;;
     COMMIT_TRAN ;;
     ret idNote)
    (fun e => ROLLBACK_TRAN ;; RETHROW e).

(** The arguments of a call, as the caller supplies them. *)
Record procArgs := mkArgs {
  arg_idAccount : option Z;
  arg_idUser : option Z;
  arg_title : option string;
  arg_content : option string
}.

(** The value of [@title] inside the procedure: the parameter is declared
    NVARCHAR(255). [@content] is NVARCHAR(MAX) and keeps the argument. *)
Definition param_title (a : procArgs) : option string :=
  option_map (nvarchar 255) (arg_title a).

(** One call of the procedure: bind the parameters and run the body in a
    fresh session, with no transaction open. *)
Definition spNoteCreate_run (env : sqlEnv) (a : procArgs) (db : database)
  : (sqlError + option Z) * session :=
  spNoteCreate_body env (arg_idAccount a) (arg_idUser a) (param_title a) (arg_content a)
    (mkSession db None None).

(** The call as its caller sees it: the result and the store it leaves. *)
Definition spNoteCreate (env : sqlEnv) (a : procArgs) (db : database)
  : (sqlError + option Z) * database :=
  (fst (spNoteCreate_run env a db), data (snd (spNoteCreate_run env a db))).

(* ================================================================== *)
(** ** JavaScript values *)
(* ================================================================== *)

(** A number is NaN, an infinity, or a finite value, kept as the rational it
    denotes. *)
Inductive jsNumber :=
| NaN
| Infinity (negative : bool)
| Finite (q : Q).

#[warnings="-register-all"] Inductive value :=
| VUndefined
| VNull
| VBool (b : bool)
| VNumber (n : jsNumber)
| VString (s : string)
| VArray (items : list value)
| VObject (fields : list (string * value)).

(** [o[k]]: the value of property [k], [undefined] when absent. *)
Fixpoint get (fields : list (string * value)) (k : string) : value :=
  match fields with
  | [] => VUndefined
  | (k', v) :: rest => if String.eqb k' k then v else get rest k
  end.

(** [{ ...o, k: v }]: [k] keeps its place when [o] has it, else comes last. *)
Fixpoint assign (fields : list (string * value)) (k : string) (v : value)
  : list (string * value) :=
  match fields with
  | [] => [(k, v)]
  | (k', v') :: rest =>
      if String.eqb k' k then (k, v) :: rest else (k', v') :: assign rest k v
  end.

Definition isInteger (n : jsNumber) : bool :=
  match n with
  | Finite q => (Qnum q) mod (Z.pos (Qden q)) =? 0
  | _ => false
  end.

(** [n > 0]. *)
Definition isPositive (n : jsNumber) : bool :=
  match n with
  | Finite q => 0 <? Qnum q
  | Infinity negative => negb negative
  | NaN => false
  end.

(** The integer an integral number denotes. *)
Definition toZ (n : jsNumber) : Z :=
  match n with
  | Finite q => Qnum q / Z.pos (Qden q)
  | _ => 0
  end.

Definition ofZ (z : Z) : jsNumber := Finite (inject_Z z).

(* ================================================================== *)
(** ** utils/response *)
(* ================================================================== *)

(** What the handler reads from its surroundings: the text of
    [new Date().toISOString()] and the clock of the database server. *)
Record jsEnv := mkJsEnv {
  toISOString : string;
  sqlClock : sqlEnv
}.

Definition successResponse (env : jsEnv) (data : value)
    (metadata : option (list (string * value))) : value :=
  VObject
    [ ("success", VBool true);
      ("data", data);
      ("metadata",
        VObject (assign (match metadata with Some m => m | None => [] end)
                        "timestamp" (VString (toISOString env)))) ].

Definition errorResponse (env : jsEnv) (message : string) (code : option string)
    (details : value) : value :=
  VObject
    [ ("success", VBool false);
      ("error",
        VObject
          [ ("code", VString (match code with Some c => c | None => "ERROR" end));
            ("message", VString message);
            ("details", details) ]);
      ("timestamp", VString (toISOString env)) ].

(* ================================================================== *)
(** ** utils/database *)
(* ================================================================== *)

Module ExpectedReturn.
Inductive t := Single | Multi | None.
End ExpectedReturn.

(** An issue of a failed schema parse: its code and the path of the value
    it is about (the other properties of an issue are left out). *)
Inductive zodIssueCode := invalid_type | too_small | too_big.

Record ZodIssue := mkIssue {
  code : zodIssueCode;
  path : list string
}.

(** What the handler can catch. *)
Inductive jsError :=
| ZodError (errors : list ZodIssue)
| RequestError (e : sqlError)
| OtherError (msg : string).

(** [error.number]. *)
Definition error_number (error : jsError) : option Z :=
  match error with
  | RequestError e => Some (number e)
  | _ => None
  end.

(** [error.message]. *)
Definition error_message (error : jsError) : string :=
  match error with
  | ZodError _ => "ZodError"
  | RequestError e => message e
  | OtherError msg => msg
  end.

(** The request the service passes on. Its type is declared in
    services/note/noteTypes, outside the files at hand; the fields are the
    four the controller fills in, the two identifiers being integral
    numbers. *)
Record NoteCreateRequest := mkRequest {
  idAccount : Z;
  idUser : Z;
  title : string;
  content : string
}.

(** The result of [request.execute]. *)
Record IResult := mkResult {
  recordsets : list (list value);
  rowsAffected : list Z
}.

(** [result.recordset]: the first record set. *)
Definition recordset (r : IResult) : list value := nth 0 (recordsets r) [].

(** An input bound to an INTEGER parameter: a number outside the INTEGER
    range is refused with a conversion error before the body runs. *)
Definition to_INTEGER (z : Z) : sqlError + option Z :=
  if (z <? - INT_MAX - 1) || (INT_MAX <? z)
  then inl (mkErr 8114 "Error converting data type bigint to int.")
  else inr (Some z).

(** [request.execute(procedure)] with the inputs bound to the parameters of
    the same names. The procedure sets NOCOUNT ON, so no row count comes
    back; its one SELECT gives one record set of one row. *)
Definition execute (env : sqlEnv) (procedure : string) (inputs : NoteCreateRequest)
    (db : database) : (jsError + IResult) * database :=
  if String.eqb procedure "[functional].[spNoteCreate]" then
    match to_INTEGER (idAccount inputs), to_INTEGER (idUser inputs) with
    | inr a, inr u =>
        match spNoteCreate env (mkArgs a u (Some (title inputs)) (Some (content inputs))) db with
        | (inl e, db') => (inl (RequestError e), db')
        | (inr idNote, db') =>
            let cell := match idNote with Some id => VNumber (ofZ id) | None => VNull end in
            (inr (mkResult [[VObject [("idNote", cell)]]] []), db')
        end
    | inl e, _ => (inl (RequestError e), db)
    | _, inl e => (inl (RequestError e), db)
    end
  else
    (inl (RequestError (mkErr 2812 "Could not find stored procedure.")), db).

(** [dbRequest] without a transaction and without result set names, as its
    one caller uses it; the pool is taken as connected. *)
Definition dbRequest (env : sqlEnv) (procedure : string) (parameters : NoteCreateRequest)
    (expectedReturn : ExpectedReturn.t) (db : database) : (jsError + value) * database :=
  match execute env procedure parameters db with
  | (inl e, db') => (inl e, db')
  | (inr result, db') =>
      match expectedReturn with
      | ExpectedReturn.Single => (inr (nth 0 (recordset result) VUndefined), db')
      | ExpectedReturn.Multi => (inr (VArray (map VArray (recordsets result))), db')
      | ExpectedReturn.None =>
          (inr (VObject [("rowsAffected",
                          VArray (map (fun n => VNumber (ofZ n)) (rowsAffected result)))]),
           db')
      end
  end.

(* ================================================================== *)
(** ** services/note *)
(* ================================================================== *)

Definition noteCreate (env : jsEnv) (params : NoteCreateRequest) (db : database)
  : (jsError + value) * database :=
  dbRequest (sqlClock env) "[functional].[spNoteCreate]" params ExpectedReturn.Single db.

(* ================================================================== *)
(** ** api/v1/internal/note: the controller *)
(* ================================================================== *)

(** [z.number().int().positive()] on the value at [field]. *)
Definition parse_id (field : string) (v : value) : list ZodIssue :=
  match v with
  | VNumber NaN => [mkIssue invalid_type [field]]
  | VNumber n =>
      (if isInteger n then [] else [mkIssue invalid_type [field]]) ++
      (if isPositive n then [] else [mkIssue too_small [field]])
  | _ => [mkIssue invalid_type [field]]
  end.

(** [z.string().min(lo)], with [.max(hi)] when [hi] is given. *)
Definition parse_string (field : string) (lo : nat) (hi : option nat) (v : value)
  : list ZodIssue :=
  match v with
  | VString s =>
      (if Nat.ltb (String.length s) lo then [mkIssue too_small [field]] else []) ++
      (match hi with
       | Some h => if Nat.ltb h (String.length s) then [mkIssue too_big [field]] else []
       | None => []
       end)
  | _ => [mkIssue invalid_type [field]]
  end.

Definition number_of (v : value) : Z :=
  match v with VNumber n => toZ n | _ => 0 end.

Definition string_of (v : value) : string :=
  match v with VString s => s | _ => "" end.

(** [bodySchema.parse(req.body)]: the issues of all four fields, in the order
    of the schema, or the validated object when there is none. *)
Definition bodySchema_issues (body : value) : list ZodIssue :=
  match body with
  | VObject fields =>
      parse_id "idAccount" (get fields "idAccount") ++
      parse_id "idUser" (get fields "idUser") ++
      parse_string "title" 1 (Some 255%nat) (get fields "title") ++
      parse_string "content" 1 Datatypes.None (get fields "content")
  | _ => [mkIssue invalid_type []]
  end.

Definition bodySchema_parse (body : value) : list ZodIssue + NoteCreateRequest :=
  match bodySchema_issues body, body with
  | [], VObject fields =>
      inr (mkRequest (number_of (get fields "idAccount"))
                     (number_of (get fields "idUser"))
                     (string_of (get fields "title"))
                     (string_of (get fields "content")))
  | issues, _ => inl issues
  end.

(** An issue as it appears in [error.errors]. *)
Definition code_name (c : zodIssueCode) : string :=
  match c with
  | invalid_type => "invalid_type"
  | too_small => "too_small"
  | too_big => "too_big"
  end.

Definition issue_value (i : ZodIssue) : value :=
  VObject [("code", VString (code_name (code i))); ("path", VArray (map VString (path i)))].

(** What the handler does with the request: it answers, or hands an error to
    [next]. *)
Inductive handled :=
| Responded (status : Z) (body : value)
| Passed (error : jsError).

Definition NoteService : Type :=
  jsEnv -> NoteCreateRequest -> database -> (jsError + value) * database.

(** The handler, over the service it imports. The [try] block is [attempt];
    the [catch] block is the match on its error. *)
Definition postHandlerWith (service : NoteService) (env : jsEnv) (body : value)
    (db : database) : handled * database :=
  let attempt :=
    match bodySchema_parse body with
    | inl issues => (inl (ZodError issues), db)
    | inr validated =>
        service env
          (mkRequest (idAccount validated) (idUser validated)
                     (title validated) (content validated))
          db
    end in
  match attempt with
  | (inr data, db') => (Responded 201 (successResponse env data Datatypes.None), db')
  | (inl error, db') =>
      match error with
      | ZodError errors =>
          (Responded 400
             (errorResponse env "Validation failed" (Some "VALIDATION_ERROR")
                (VArray (map issue_value errors))),
           db')
      | _ =>
          if match error_number error with Some n => n =? 51000 | Datatypes.None => false end
          then
            (Responded 400
               (errorResponse env (error_message error) (Some "BUSINESS_RULE_ERROR") VUndefined),
             db')
          else (Passed error, db')
      end
  end.

Definition postHandler : jsEnv -> value -> database -> handled * database :=
  postHandlerWith noteCreate.

(* ================================================================== *)
(** ** Vocabulary of the statements *)
(* ================================================================== *)

(** The parameters of a call: the arguments, converted to the declared
    types. *)
Definition bind_parameters (a : procArgs) : procArgs :=
  mkArgs (arg_idAccount a) (arg_idUser a) (param_title a) (arg_content a).

(** The validations as the specification lists them (section 4.1), each
    with the message of its condition, on the values [p] of the parameters:
    first the five that read the parameters only. *)
Definition input_validations (p : procArgs) : list (bool * string) :=
  [ (is_null (arg_idAccount p), "idAccountRequired");
    (is_null (arg_idUser p), "idUserRequired");
    (is_null (arg_title p) || trimmed_is_empty (arg_title p), "titleRequired");
    (is_null (arg_content p) || trimmed_is_empty (arg_content p), "contentRequired");
    (len_exceeds_255 (arg_title p), "titleExceedsMaxLength") ].

(** The sixth validation: no active user of the account. *)
Definition no_active_user (db : database) (p : procArgs) : bool :=
  negb (existsb (user_matches (arg_idUser p) (arg_idAccount p)) (user db)).

Definition validations (db : database) (p : procArgs) : list (bool * string) :=
  input_validations p ++ [ (no_active_user db p, "userDoesNotBelongToAccount") ].

(** The validations of a call with the arguments [a]: those of the
    parameters the arguments are bound to. *)
Definition input_checks (a : procArgs) : list (bool * string) :=
  input_validations (bind_parameters a).

Definition checks (db : database) (a : procArgs) : list (bool * string) :=
  validations db (bind_parameters a).

(** The message of the first violated check of a list, if any. *)
Definition first_of (l : list (bool * string)) : option string :=
  option_map snd (find fst l).

Definition first_violation (db : database) (a : procArgs) : option string :=
  first_of (checks db a).

(** The six business-rule conditions of the procedure. *)
Definition business_rule_conditions : list sqlError :=
  map (mkErr 51000)
    [ "idAccountRequired"; "idUserRequired"; "titleRequired"; "contentRequired";
      "titleExceedsMaxLength"; "userDoesNotBelongToAccount" ].

(** The constraints of the note table admit the row the procedure would
    insert for [a]: the next identity value is an INTEGER no row carries, and
    the account exists. *)
Definition insert_admitted (db : database) (a : procArgs) : bool :=
  (noteIdentity db + 1 <=? INT_MAX) &&
  negb (pkNote_violation db (noteIdentity db + 1)) &&
  match arg_idAccount a with
  | Some ia => negb (fkNote_Account_violation db ia)
  | None => false
  end.

(** A title of [n] letters. *)
Definition letters (n : nat) : string := string_of_list_ascii (repeat "a"%char n).

(** A text of [n] space characters. *)
Definition spaces (n : nat) : string := string_of_list_ascii (repeat " "%char n).

(** A run of calls, one after the other, each with its clock and arguments;
    the results come back in the order of the calls. *)
Fixpoint run_calls (calls : list (sqlEnv * procArgs)) (db : database)
  : list (sqlError + option Z) * database :=
  match calls with
  | [] => ([], db)
  | (env, a) :: rest =>
      let '(r, db1) := spNoteCreate env a db in
      let '(rs, db2) := run_calls rest db1 in
      (r :: rs, db2)
  end.

(** The identifiers the successful calls of a run returned. *)
Fixpoint returned_ids (rs : list (sqlError + option Z)) : list Z :=
  match rs with
  | [] => []
  | inr (Some id) :: rest => id :: returned_ids rest
  | _ :: rest => returned_ids rest
  end.

(** The stores the procedure can produce: it starts from an empty note table
    and is the only writer of that table; the account and user tables belong
    to other parts of the system and may change between two calls. *)
Inductive reachable : database -> Prop :=
| reachable_empty : forall accounts users,
    reachable (mkDb accounts users [] 0)
| reachable_create : forall db env a,
    reachable db -> reachable (snd (spNoteCreate env a db))
| reachable_elsewhere : forall db accounts users,
    reachable db -> reachable (mkDb accounts users (note db) (noteIdentity db)).

(** What the TRY ... CATCH block makes of the INSERT, run from [db] with the
    transaction just opened: on an error the rows are put back and the error
    is raised again; otherwise the identity read back is the result. *)
Definition transaction_outcome (env : sqlEnv) (a : procArgs) (db : database)
  : (sqlError + option Z) * session :=
  match
    INSERT_note (arg_idAccount a) (arg_idUser a) (param_title a) (arg_content a)
      (GETUTCDATE env) (GETUTCDATE env) false (mkSession db (Some db) None)
  with
  | (inl e, s) =>
      (inl e,
       mkSession (mkDb (account db) (user db) (note db) (noteIdentity (data s)))
                 None (scopeIdentity s))
  | (inr _, s) => (inr (scopeIdentity s), mkSession (data s) None (scopeIdentity s))
  end.

(** There is an active user row of the given user and account. *)
Definition active_user_row (db : database) (a : procArgs) : Prop :=
  exists usr,
    In usr (user db) /\
    arg_idUser a = Some (usr_idUser usr) /\
    arg_idAccount a = Some (usr_idAccount usr) /\
    usr_deleted usr = false.

(** The store and the inputs of the scenarios: account 1 with the active
    user 5 and the soft-deleted user 6, account 2 with the active user 7. *)
Definition scenario_db : database :=
  mkDb [1; 2] [mkUser 5 1 false; mkUser 6 1 true; mkUser 7 2 false] [] 0.

Definition scenario_clock : sqlEnv := mkSqlEnv 1000.

Definition groceries : procArgs :=
  mkArgs (Some 1) (Some 5) (Some "Groceries") (Some "Milk, eggs").

Definition groceries_row (id : Z) : noteRow :=
  mkNote id 1 5 "Groceries" "Milk, eggs" 1000 1000 false.

(** The scenario store once the identity column has handed out its last
    INTEGER, and the scenario store without any account row. *)
Definition exhausted_db : database :=
  mkDb [1; 2] [mkUser 5 1 false; mkUser 6 1 true; mkUser 7 2 false] [] INT_MAX.

Definition orphan_db : database :=
  mkDb [] [mkUser 5 1 false] [] 0.

(** The structural contract of the request body as the specification states
    it (section 4.3), field by field: the two identifiers are positive
    integers, the title is a string of 1 to 255 characters, the content a
    string of at least 1 character. *)
Definition is_positive_integer (v : value) : bool :=
  match v with
  | VNumber n => isInteger n && isPositive n
  | _ => false
  end.

Definition is_string_of_length (lo : nat) (hi : option nat) (v : value) : bool :=
  match v with
  | VString s =>
      Nat.leb lo (String.length s) &&
      match hi with
      | Some h => Nat.leb (String.length s) h
      | None => true
      end
  | _ => false
  end.

Definition field_valid (fields : list (string * value)) (f : string) : bool :=
  if String.eqb f "idAccount" then is_positive_integer (get fields "idAccount")
  else if String.eqb f "idUser" then is_positive_integer (get fields "idUser")
  else if String.eqb f "title" then is_string_of_length 1 (Some 255%nat) (get fields "title")
  else if String.eqb f "content" then is_string_of_length 1 None (get fields "content")
  else true.

Definition structurally_valid (body : value) : bool :=
  match body with
  | VObject fields =>
      forallb (field_valid fields) ["idAccount"; "idUser"; "title"; "content"]
  | _ => false
  end.

(** Texts made of space characters only, and texts made of white space only
    (space, tab, line feed, vertical tab, form feed, carriage return). *)
Definition only_spaces (s : string) : bool :=
  forallb is_space (list_ascii_of_string s).

Definition is_whitespace (c : ascii) : bool :=
  let n := nat_of_ascii c in
  Nat.eqb n 32 || (Nat.leb 9 n && Nat.leb n 13).

Definition only_whitespace (s : string) : bool :=
  forallb is_whitespace (list_ascii_of_string s).

(** The request of the scenarios, with a given title. *)
Definition scenario_env : jsEnv := mkJsEnv "2025-01-01T00:00:00.000Z" scenario_clock.

Definition scenario_body (title : string) : value :=
  VObject [ ("idAccount", VNumber (ofZ 1)); ("idUser", VNumber (ofZ 5));
            ("title", VString title); ("content", VString "Milk, eggs") ].

(** The success envelope for the identifier [id]. *)
Definition created_envelope (env : jsEnv) (id : Z) : value :=
  VObject
    [ ("success", VBool true);
      ("data", VObject [("idNote", VNumber (ofZ id))]);
      ("metadata", VObject [("timestamp", VString (toISOString env))]) ].

(* ================================================================== *)
(** ** The rest of the middleware and of utils/database *)
(* ================================================================== *)

(** [v.k]: a property of an object, [undefined] on anything else. *)
Definition prop (v : value) (k : string) : value :=
  match v with
  | VObject fields => get fields k
  | _ => VUndefined
  end.

(** Truthiness, and [a || b]. *)
Definition truthy (v : value) : bool :=
  match v with
  | VUndefined => false
  | VNull => false
  | VBool b => b
  | VNumber NaN => false
  | VNumber (Infinity _) => true
  | VNumber (Finite q) => negb (Qnum q =? 0)
  | VString s => negb (String.eqb s "")
  | VArray _ => true
  | VObject _ => true
  end.

Definition or_else (a b : value) : value := if truthy a then a else b.

(** What the middleware reads of a request. *)
Record httpRequest := mkHttpRequest {
  req_method : string;
  req_path : string
}.

(** middleware/notFound. *)
Definition notFoundMiddleware (env : jsEnv) (req : httpRequest) : handled :=
  Responded 404
    (VObject
       [ ("success", VBool false);
         ("error",
           VObject
             [ ("code", VString "NOT_FOUND");
               ("message",
                 VString ("Route " ++ req_method req ++ " " ++ req_path req ++ " not found"));
               ("timestamp", VString (toISOString env)) ]) ]).

(** middleware/error. The error is an object, given by its properties;
    [NODE_ENV] is [process.env.NODE_ENV]. The outcome is what is written to
    the console, the status set on the response and the body sent. *)
Record errorOutcome := mkErrorOutcome {
  logged : value;
  statusSet : value;
  bodySent : value
}.

Definition errorMiddleware (env : jsEnv) (NODE_ENV : option string)
    (error : list (string * value)) (req : httpRequest) : errorOutcome :=
  let statusCode := or_else (get error "statusCode") (VNumber (ofZ 500)) in
  mkErrorOutcome
    (VObject
       [ ("message", get error "message");
         ("stack", get error "stack");
         ("path", VString (req_path req));
         ("method", VString (req_method req)) ])
    statusCode
    (VObject
       [ ("success", VBool false);
         ("error",
           VObject
             [ ("code", or_else (get error "code") (VString "INTERNAL_SERVER_ERROR"));
               ("message",
                 or_else (get error "message") (VString "An unexpected error occurred"));
               ("details",
                 match NODE_ENV with
                 | Some mode =>
                     if String.eqb mode "development" then get error "stack" else VUndefined
                 | Datatypes.None => VUndefined
                 end) ]);
         ("timestamp", VString (toISOString env)) ]).

(** [getPool]. The module keeps one pool, [null] at first; [connect n] is
    what the [n]-th call of [sql.connect] gives, a pool or the message of the
    error it rejects with. Calls are taken one after the other. *)
Section Pool.

Variable ConnectionPool : Type.
Variable connect : nat -> string + ConnectionPool.

Record poolState := mkPoolState {
  pool : option ConnectionPool;
  connects : nat
}.

Definition getPool (st : poolState) : (string + ConnectionPool) * poolState :=
  match pool st with
  | Some p => (inr p, st)
  | Datatypes.None =>
      match connect (connects st) with
      | inr p => (inr p, mkPoolState (Some p) (S (connects st)))
      | inl e => (inl e, mkPoolState Datatypes.None (S (connects st)))
      end
  end.

(** [n] calls in a row. *)
Fixpoint getPool_times (n : nat) (st : poolState)
  : list (string + ConnectionPool) * poolState :=
  match n with
  | O => ([], st)
  | S k =>
      let '(r, st1) := getPool st in
      let '(rs, st2) := getPool_times k st1 in
      (r :: rs, st2)
  end.

End Pool.

(** The errors the INSERT of the procedure can raise. *)
Definition identity_overflow : sqlError :=
  mkErr 8115 "Arithmetic overflow error converting IDENTITY to data type int.".

Definition pkNote_violated : sqlError :=
  mkErr 2627 "Violation of PRIMARY KEY constraint 'pkNote'.".

Definition fkNote_Account_violated : sqlError :=
  mkErr 547 "The INSERT statement conflicted with the FOREIGN KEY constraint 'fkNote_Account'.".

(** The title, or the content, is missing or blank for the procedure: NULL,
    or spaces only once bound to the parameter. *)
Definition title_blank (a : procArgs) : bool :=
  match arg_title a with
  | Some t => only_spaces (nvarchar 255 t)
  | Datatypes.None => true
  end.

Definition content_blank (a : procArgs) : bool :=
  match arg_content a with
  | Some c => only_spaces c
  | Datatypes.None => true
  end.

(** The number of failed results of a list. *)
Definition failures {E A} (rs : list (E + A)) : nat :=
  List.length (filter (fun r => match r with inl _ => true | inr _ => false end) rs).

(** The title as given is NULL or made of spaces only. *)
Definition raw_title_blank (a : procArgs) : bool :=
  match arg_title a with
  | Some t => only_spaces t
  | Datatypes.None => true
  end.

(** The invalid-input classes read on the arguments as given: an
    identifier is missing, the title or the content is NULL or made of spaces
    only, or no active user of the account exists. (The class of the titles
    longer than 255 characters is not among them.) *)
Definition invalid_input (db : database) (a : procArgs) : bool :=
  is_null (arg_idAccount a) || is_null (arg_idUser a) ||
  raw_title_blank a || content_blank a || no_active_user db a.

(** The condition of the first of these classes an input falls into. *)
Definition expected_condition (a : procArgs) : string :=
  if is_null (arg_idAccount a) then "idAccountRequired"
  else if is_null (arg_idUser a) then "idUserRequired"
  else if raw_title_blank a then "titleRequired"
  else if content_blank a then "contentRequired"
  else "userDoesNotBelongToAccount".

(** The elements of an array, none for anything else. *)
Definition items (v : value) : list value :=
  match v with
  | VArray l => l
  | _ => []
  end.

(** The bodies of the two 400 answers of the controller, property by
    property. *)
Definition validation_error_body (env : jsEnv) (issues : list ZodIssue) : value :=
  VObject
    [ ("success", VBool false);
      ("error",
        VObject
          [ ("code", VString "VALIDATION_ERROR");
            ("message", VString "Validation failed");
            ("details",
              VArray
                (map (fun i =>
                        VObject
                          [ ("code",
                              VString match code i with
                                      | invalid_type => "invalid_type"
                                      | too_small => "too_small"
                                      | too_big => "too_big"
                                      end);
                            ("path", VArray (map VString (path i))) ])
                     issues)) ]);
      ("timestamp", VString (toISOString env)) ].

Definition business_rule_error_body (env : jsEnv) (message : string) : value :=
  VObject
    [ ("success", VBool false);
      ("error",
        VObject
          [ ("code", VString "BUSINESS_RULE_ERROR");
            ("message", VString message);
            ("details", VUndefined) ]);
      ("timestamp", VString (toISOString env)) ].

(* ================================================================== *)
(** ** The procedure, phase by phase *)
(* ================================================================== *)

Ltac unfold_statements :=
  unfold spNoteCreate_run, spNoteCreate_body, transaction_outcome, TRY_CATCH, bind, IF_,
    THROW, RETHROW, ret, EXISTS_user, BEGIN_TRAN, COMMIT_TRAN, ROLLBACK_TRAN,
    SCOPE_IDENTITY.

Ltac split_branches :=
  repeat match goal with
         | |- context [if ?c then _ else _] => destruct c eqn:?; cbn
         end.

Lemma input_checks_eq (a : procArgs) :
  input_checks a =
  [ (is_null (arg_idAccount a), "idAccountRequired");
    (is_null (arg_idUser a), "idUserRequired");
    (is_null (param_title a) || trimmed_is_empty (param_title a), "titleRequired");
    (is_null (arg_content a) || trimmed_is_empty (arg_content a), "contentRequired");
    (len_exceeds_255 (param_title a), "titleExceedsMaxLength") ].
Proof. reflexivity. Qed.

Lemma checks_eq (db : database) (a : procArgs) :
  checks db a =
  (input_checks a ++ [ (no_active_user db a, "userDoesNotBelongToAccount") ])%list.
Proof. reflexivity. Qed.

(** The body stops at the first violated validation, whatever the values of
    its parameters, and leaves the session as it found it. *)
Lemma spNoteCreate_body_rejects (env : sqlEnv) (p : procArgs) (db : database) (m : string) :
  first_of (validations db p) = Some m ->
  spNoteCreate_body env (arg_idAccount p) (arg_idUser p) (arg_title p) (arg_content p)
    (mkSession db None None) =
  (inl (mkErr 51000 m), mkSession db None None).
Proof.
  destruct p as [ia iu t c].
  unfold first_of, validations, input_validations, no_active_user.
  unfold_statements. cbn [arg_idAccount arg_idUser arg_title arg_content].
  destruct ia as [ia|]; [|intros H; inversion H; reflexivity].
  destruct iu as [iu|]; [|intros H; inversion H; reflexivity].
  cbn [is_null app find fst snd option_map data user].
  destruct t as [t|]; [|intros H; inversion H; reflexivity].
  cbn [is_null orb].
  destruct (trimmed_is_empty (Some t)); [intros H; inversion H; reflexivity|].
  destruct c as [c|]; [|intros H; inversion H; reflexivity].
  cbn [is_null orb].
  destruct (trimmed_is_empty (Some c)); [intros H; inversion H; reflexivity|].
  destruct (len_exceeds_255 (Some t)); [intros H; inversion H; reflexivity|].
  cbn [find fst snd option_map data user negb].
  destruct (existsb (user_matches (Some iu) (Some ia)) (user db));
    cbn [negb find fst snd option_map]; intros H; inversion H; reflexivity.
Qed.

(** The procedure is its validations followed by its transaction. *)
Lemma spNoteCreate_run_phases (env : sqlEnv) (a : procArgs) (db : database) :
  spNoteCreate_run env a db =
  match first_violation db a with
  | Some m => (inl (mkErr 51000 m), mkSession db None None)
  | None => transaction_outcome env a db
  end.
Proof.
  destruct a as [ia iu t c].
  unfold first_violation. rewrite checks_eq, input_checks_eq.
  unfold first_of, no_active_user.
  unfold_statements. unfold param_title. cbn [arg_idAccount arg_idUser arg_title arg_content].
  generalize (option_map (nvarchar 255) t) as pt. intros pt.
  destruct ia as [ia|]; [|reflexivity].
  destruct iu as [iu|]; [|reflexivity].
  cbn [is_null app find fst snd option_map data user].
  destruct pt as [pt|]; [|reflexivity].
  cbn [is_null orb].
  destruct (trimmed_is_empty (Some pt)); [reflexivity|].
  destruct c as [c|]; [|reflexivity].
  cbn [is_null orb].
  destruct (trimmed_is_empty (Some c)); [reflexivity|].
  destruct (len_exceeds_255 (Some pt)); [reflexivity|].
  cbn [find fst snd option_map data user negb].
  destruct (existsb (user_matches (Some iu) (Some ia)) (user db)); [|reflexivity].
  cbn [negb find fst snd option_map].
  unfold INSERT_note. cbn [data tran scopeIdentity].
  split_branches; reflexivity.
Qed.

(** The INSERT of a row whose four values are present, on any session. *)
Lemma INSERT_note_cases (ia iu : Z) (t c : string) (d1 d2 : Z) (del : bool) (s : session) :
  let id := noteIdentity (data s) + 1 in
  let db := set_identity (data s) id in
  INSERT_note (Some ia) (Some iu) (Some t) (Some c) d1 d2 del s =
  if INT_MAX <? id then
    (inl (mkErr 8115 "Arithmetic overflow error converting IDENTITY to data type int."), s)
  else if pkNote_violation db id then
    (inl (mkErr 2627 "Violation of PRIMARY KEY constraint 'pkNote'."),
     mkSession db (tran s) (scopeIdentity s))
  else if fkNote_Account_violation db ia then
    (inl (mkErr 547 "The INSERT statement conflicted with the FOREIGN KEY constraint 'fkNote_Account'."),
     mkSession db (tran s) (scopeIdentity s))
  else if fkNote_User_violation db iu then
    (inl (mkErr 547 "The INSERT statement conflicted with the FOREIGN KEY constraint 'fkNote_User'."),
     mkSession db (tran s) (scopeIdentity s))
  else
    (inr tt, mkSession (add_note db (mkNote id ia iu t c d1 d2 del)) (tran s) (Some id)).
Proof. reflexivity. Qed.

(** An input that passes the validations has its four values. *)
Lemma accepted_arguments (db : database) (a : procArgs) :
  first_violation db a = None ->
  exists ia iu t c,
    arg_idAccount a = Some ia /\ arg_idUser a = Some iu /\
    param_title a = Some t /\ arg_content a = Some c /\
    trimmed_is_empty (Some t) = false /\ trimmed_is_empty (Some c) = false /\
    len_exceeds_255 (Some t) = false /\
    existsb (user_matches (Some iu) (Some ia)) (user db) = true.
Proof.
  destruct a as [ia iu t c].
  unfold first_violation. rewrite checks_eq, input_checks_eq.
  unfold first_of, no_active_user, param_title.
  cbn [arg_idAccount arg_idUser arg_title arg_content].
  generalize (option_map (nvarchar 255) t) as pt. intros pt.
  destruct ia as [ia|]; [|discriminate].
  destruct iu as [iu|]; [|discriminate].
  destruct pt as [pt|]; [|discriminate].
  destruct c as [c|];
    cbn [is_null app find fst snd option_map orb];
    destruct (trimmed_is_empty (Some pt)) eqn:Ht; try discriminate.
  cbn [is_null app find fst snd option_map orb].
  destruct (trimmed_is_empty (Some c)) eqn:Hc; [discriminate|].
  destruct (len_exceeds_255 (Some pt)) eqn:Hl; [discriminate|].
  cbn [find fst snd option_map].
  destruct (existsb (user_matches (Some iu) (Some ia)) (user db)) eqn:Hu;
    cbn [negb find fst snd option_map]; [|discriminate].
  intros _. exists ia, iu, pt, c. repeat split; assumption.
Qed.

(** The user the sixth validation found satisfies fkNote_User. *)
Lemma matching_user_satisfies_fk (db : database) (iu ia : Z) :
  existsb (user_matches (Some iu) (Some ia)) (user db) = true ->
  fkNote_User_violation db iu = false.
Proof.
  unfold fkNote_User_violation. intros H.
  apply existsb_exists in H. destruct H as [usr [Hin Hm]].
  apply negb_false_iff. apply existsb_exists. exists usr. split; [assumption|].
  unfold user_matches in Hm.
  apply andb_true_iff in Hm. destruct Hm as [Hm _].
  apply andb_true_iff in Hm. destruct Hm as [Hm _]. exact Hm.
Qed.

(** The three ways a call can end: a validation rejects the input and the
    session is untouched; the INSERT raises, the rows are put back and only
    the identity counter may have moved; or one row is added. *)
Lemma spNoteCreate_run_cases (env : sqlEnv) (a : procArgs) (db : database) :
  (exists m,
      first_violation db a = Some m /\
      spNoteCreate_run env a db = (inl (mkErr 51000 m), mkSession db None None))
  \/
  (first_violation db a = None /\ insert_admitted db a = false /\
   exists e n s1,
      spNoteCreate_run env a db =
        (inl e, mkSession (mkDb (account db) (user db) (note db) n) None None) /\
      INSERT_note (arg_idAccount a) (arg_idUser a) (param_title a) (arg_content a)
        (GETUTCDATE env) (GETUTCDATE env) false (mkSession db (Some db) None) = (inl e, s1) /\
      noteIdentity db <= n /\ number e <> 51000)
  \/
  (first_violation db a = None /\ insert_admitted db a = true /\
   exists ia iu t c,
      arg_idAccount a = Some ia /\ arg_idUser a = Some iu /\
      param_title a = Some t /\ arg_content a = Some c /\
      spNoteCreate_run env a db =
        (inr (Some (noteIdentity db + 1)),
         mkSession
           (mkDb (account db) (user db)
                 (note db ++ [mkNote (noteIdentity db + 1) ia iu t c
                                     (GETUTCDATE env) (GETUTCDATE env) false])
                 (noteIdentity db + 1))
           None (Some (noteIdentity db + 1)))).
Proof.
  rewrite spNoteCreate_run_phases.
  destruct (first_violation db a) as [m|] eqn:Hv.
  - left. exists m. split; reflexivity.
  - right.
    destruct (accepted_arguments db a Hv)
      as (ia & iu & t & c & Ha & Hu & Ht & Hc & _ & _ & _ & Hex).
    pose proof (matching_user_satisfies_fk db iu ia Hex) as Hfk.
    unfold transaction_outcome, insert_admitted.
    rewrite Ha, Hu, Ht, Hc, INSERT_note_cases.
    cbn [data tran scopeIdentity].
    replace (fkNote_User_violation (set_identity db (noteIdentity db + 1)) iu)
      with false by (symmetry; exact Hfk).
    change (pkNote_violation (set_identity db (noteIdentity db + 1)) (noteIdentity db + 1))
      with (pkNote_violation db (noteIdentity db + 1)).
    change (fkNote_Account_violation (set_identity db (noteIdentity db + 1)) ia)
      with (fkNote_Account_violation db ia).
    destruct (INT_MAX <? noteIdentity db + 1) eqn:Hmax.
    + left. split; [reflexivity|]. split.
      * apply Z.ltb_lt in Hmax.
        destruct (noteIdentity db + 1 <=? INT_MAX) eqn:Hle; [|reflexivity].
        apply Z.leb_le in Hle. lia.
      * eexists; exists (noteIdentity db); eexists. cbn [data scopeIdentity].
        split; [reflexivity|]. split; [reflexivity|]. split; [lia|]. cbn. discriminate.
    + apply Z.ltb_ge in Hmax.
      replace (noteIdentity db + 1 <=? INT_MAX) with true
        by (symmetry; apply Z.leb_le; exact Hmax).
      destruct (pkNote_violation db (noteIdentity db + 1)) eqn:Hpk.
      * left. split; [reflexivity|]. split; [reflexivity|].
        eexists; exists (noteIdentity db + 1); eexists. cbn [data scopeIdentity set_identity noteIdentity].
        split; [reflexivity|]. split; [reflexivity|]. split; [lia|]. cbn. discriminate.
      * destruct (fkNote_Account_violation db ia) eqn:Hfa.
        -- left. split; [reflexivity|]. split; [reflexivity|].
           eexists; exists (noteIdentity db + 1); eexists.
           cbn [data scopeIdentity set_identity noteIdentity].
           split; [reflexivity|]. split; [reflexivity|]. split; [lia|]. cbn. discriminate.
        -- right. split; [reflexivity|]. split; [reflexivity|].
           exists ia, iu, t, c. repeat split; reflexivity.
Qed.

(** The identity counter never goes back, no row is ever removed, and a
    successful call returns the counter it leaves. *)
Lemma spNoteCreate_identity (env : sqlEnv) (a : procArgs) (db : database) :
  noteIdentity db <= noteIdentity (snd (spNoteCreate env a db)) /\
  (forall r, fst (spNoteCreate env a db) = inr r ->
     r = Some (noteIdentity (snd (spNoteCreate env a db))) /\
     noteIdentity db < noteIdentity (snd (spNoteCreate env a db))).
Proof.
  unfold spNoteCreate. cbn [fst snd].
  destruct (spNoteCreate_run_cases env a db)
    as [(m & _ & Hr) | [(_ & _ & e & n & s1 & Hr & _ & Hn & _)
                       | (_ & _ & ia & iu & t & c & _ & _ & _ & _ & Hr)]];
    rewrite Hr; cbn [fst snd data noteIdentity].
  - split; [lia|]. discriminate.
  - split; [lia|]. discriminate.
  - split; [lia|]. intros r Heq. inversion Heq. split; [reflexivity|lia].
Qed.

(** The note table after a call: the table before, with at most one row
    more, whose two timestamps are the reading of the clock. *)
Lemma spNoteCreate_notes (env : sqlEnv) (a : procArgs) (db : database) :
  note (snd (spNoteCreate env a db)) = note db \/
  exists row,
    note (snd (spNoteCreate env a db)) = (note db ++ [row])%list /\
    fst (spNoteCreate env a db) = inr (Some (nt_idNote row)) /\
    nt_dateCreated row = GETUTCDATE env /\ nt_dateModified row = GETUTCDATE env /\
    nt_deleted row = false.
Proof.
  unfold spNoteCreate. cbn [fst snd].
  destruct (spNoteCreate_run_cases env a db)
    as [(m & _ & Hr) | [(_ & _ & e & n & s1 & Hr & _)
                       | (_ & _ & ia & iu & t & c & _ & _ & _ & _ & Hr)]];
    rewrite Hr; cbn [fst snd data note].
  - left. reflexivity.
  - left. reflexivity.
  - right. eexists. split; [reflexivity|]. cbn. repeat split; reflexivity.
Qed.

(* ================================================================== *)
(** ** Lists of checks *)
(* ================================================================== *)

Lemma first_of_app (l1 l2 : list (bool * string)) :
  first_of (l1 ++ l2) =
  match first_of l1 with
  | Some m => Some m
  | None => first_of l2
  end.
Proof.
  unfold first_of. induction l1 as [|[b m] l1 IH]; [reflexivity|].
  cbn [app find fst]. destruct b; [reflexivity|exact IH].
Qed.

(** A violated check with none violated before it is the first violation. *)
Lemma first_of_earliest (l : list (bool * string)) (i : nat) (m : string) :
  nth_error l i = Some (true, m) ->
  (forall j b m', (j < i)%nat -> nth_error l j = Some (b, m') -> b = false) ->
  first_of l = Some m.
Proof.
  revert i. induction l as [|[b m0] l IH]; intros i Hi Hbefore.
  - destruct i; discriminate.
  - destruct i as [|i].
    + cbn in Hi. inversion Hi. reflexivity.
    + assert (b = false) as -> by (apply (Hbefore 0%nat b m0); [lia|reflexivity]).
      unfold first_of. cbn [find fst]. apply (IH i); [exact Hi|].
      intros j b' m' Hj Hn. apply (Hbefore (S j) b' m'); [lia|exact Hn].
Qed.

(** The first violation sits at some position, after passing checks only. *)
Lemma first_of_position (l : list (bool * string)) (m : string) :
  first_of l = Some m ->
  exists k,
    nth_error l k = Some (true, m) /\
    forall j b m', (j < k)%nat -> nth_error l j = Some (b, m') -> b = false.
Proof.
  unfold first_of. induction l as [|[b m0] l IH]; [discriminate|].
  cbn [find fst]. destruct b.
  - intros H. inversion H. exists 0%nat. split; [reflexivity|]. intros j b m' Hj. lia.
  - intros H. destruct (IH H) as [k [Hk Hbefore]]. exists (S k). split; [exact Hk|].
    intros j b m' Hj Hn. destruct j as [|j].
    + cbn in Hn. inversion Hn. reflexivity.
    + apply (Hbefore j b m'); [lia|exact Hn].
Qed.

(** The six messages are pairwise different. *)
Lemma checks_messages_distinct (db : database) (a : procArgs) :
  NoDup (map snd (checks db a)).
Proof.
  cbn. repeat constructor; cbn; intuition discriminate.
Qed.

Lemma nth_error_message (l : list (bool * string)) (i : nat) (b : bool) (m : string) :
  nth_error l i = Some (b, m) -> nth_error (map snd l) i = Some m.
Proof.
  intros H. rewrite nth_error_map, H. reflexivity.
Qed.

(* ================================================================== *)
(** ** Strings *)
(* ================================================================== *)

Lemma length_RTRIM (s : string) : (String.length (RTRIM s) <= String.length s)%nat.
Proof.
  induction s as [|c s IH]; [apply Nat.le_refl|].
  cbn [RTRIM]. destruct (RTRIM s) as [|c' r'].
  - destruct (is_space c); cbn; lia.
  - cbn [String.length] in *. lia.
Qed.

Lemma length_substring (n : nat) (s : string) :
  (String.length (substring 0 n s) <= n)%nat.
Proof.
  revert s. induction n as [|n IH]; intros s.
  - destruct s; cbn; lia.
  - destruct s as [|c s]; cbn [substring String.length]; [lia|].
    specialize (IH s). lia.
Qed.

(** Inside the procedure [LEN(@title)] is at most 255, whatever the
    argument. *)
Lemma len_of_parameter (a : procArgs) : len_exceeds_255 (param_title a) = false.
Proof.
  unfold param_title, len_exceeds_255. destruct (arg_title a) as [t|]; [|reflexivity].
  cbn [option_map]. apply Z.ltb_ge. unfold LEN, nvarchar.
  pose proof (length_RTRIM (substring 0 255 t)).
  pose proof (length_substring 255 t). lia.
Qed.

(** A title of at most 255 characters reaches the procedure unchanged. *)
Lemma nvarchar_short (n : nat) (s : string) :
  (String.length s <= n)%nat -> nvarchar n s = s.
Proof.
  unfold nvarchar. revert s. induction n as [|n IH]; intros s H.
  - destruct s; [reflexivity|cbn in H; lia].
  - destruct s as [|c s]; [reflexivity|]. cbn [substring]. f_equal. apply IH.
    cbn in H. lia.
Qed.

(** The EXISTS query finds a row exactly when an active user row exists. *)
Lemma EXISTS_user_spec (db : database) (a : procArgs) :
  existsb (user_matches (arg_idUser a) (arg_idAccount a)) (user db) = true <->
  active_user_row db a.
Proof.
  unfold active_user_row. rewrite existsb_exists. split.
  - intros [usr [Hin Hm]]. exists usr. split; [exact Hin|].
    unfold user_matches in Hm.
    destruct (arg_idUser a) as [u|]; [|discriminate].
    destruct (arg_idAccount a) as [ac|]; [|discriminate].
    apply andb_true_iff in Hm. destruct Hm as [Hm Hd].
    apply andb_true_iff in Hm. destruct Hm as [Hu Ha].
    apply Z.eqb_eq in Hu. apply Z.eqb_eq in Ha. apply negb_true_iff in Hd.
    subst. repeat split; try reflexivity; exact Hd.
  - intros [usr (Hin & Hu & Ha & Hd)]. exists usr. split; [exact Hin|].
    unfold user_matches. rewrite Hu, Ha, Hd, !Z.eqb_refl. reflexivity.
Qed.

(* ================================================================== *)
(** ** The create operation: success *)
(* ================================================================== *)

(** C1 (as amended). For every input that passes all six validations, on a
    store whose note table admits the new row (the account exists, the next
    identity value is an INTEGER that no row carries), the call adds exactly
    one row to the note table and changes nothing else; the row has
    [dateCreated] and [dateModified] both equal to the one reading of
    GETUTCDATE() taken inside the transaction, [deleted] false, and as
    [idNote] the identity value the call returns; the transaction is
    committed. *)
Theorem spNoteCreate_inserts_one_row (env : sqlEnv) (a : procArgs) (db : database) :
  first_violation db a = None ->
  insert_admitted db a = true ->
  exists ia iu t c,
    arg_idAccount a = Some ia /\ arg_idUser a = Some iu /\
    param_title a = Some t /\ arg_content a = Some c /\
    let id := noteIdentity db + 1 in
    let row := mkNote id ia iu t c (GETUTCDATE env) (GETUTCDATE env) false in
    spNoteCreate env a db =
      (inr (Some id), mkDb (account db) (user db) (note db ++ [row]) id) /\
    tran (snd (spNoteCreate_run env a db)) = None.
Proof.
  intros Hv Hadm.
  destruct (spNoteCreate_run_cases env a db)
    as [(m & Hm & _) | [(_ & Hno & _)
                       | (_ & _ & ia & iu & t & c & Ha & Hu & Ht & Hc & Hr)]].
  - rewrite Hv in Hm. discriminate.
  - rewrite Hadm in Hno. discriminate.
  - exists ia, iu, t, c. repeat (split; [assumption|]).
    unfold spNoteCreate. rewrite Hr. split; reflexivity.
Qed.

Lemma spNoteCreate_inserts_one_row_witness :
  first_violation scenario_db groceries = None /\
  insert_admitted scenario_db groceries = true /\
  spNoteCreate scenario_clock groceries scenario_db =
    (inr (Some 1),
     mkDb [1; 2] [mkUser 5 1 false; mkUser 6 1 true; mkUser 7 2 false]
          [groceries_row 1] 1).
Proof.
  split; [reflexivity|]. split; [reflexivity|].
  destruct (spNoteCreate_inserts_one_row scenario_clock groceries scenario_db
              eq_refl eq_refl)
    as (ia & iu & t & c & Ha & Hu & Ht & Hc & Hr & _).
  rewrite Hr. injection Ha as <-. injection Hu as <-. injection Ht as <-.
  injection Hc as <-. reflexivity.
Defined.

(** C1 as stated fails: on a store whose identity column has handed out the
    last INTEGER, an input passes all six validations, the INSERT raises, and
    no row is inserted. The same happens on a store where the user row names
    an account that has no row: no validation reads the account table, and
    fkNote_Account rejects the INSERT. *)
Lemma validations_passed_insert_raised :
  first_violation exhausted_db groceries = None /\
  spNoteCreate scenario_clock groceries exhausted_db =
    (inl (mkErr 8115 "Arithmetic overflow error converting IDENTITY to data type int."),
     exhausted_db) /\
  first_violation orphan_db groceries = None /\
  fst (spNoteCreate scenario_clock groceries orphan_db) =
    inl (mkErr 547
           "The INSERT statement conflicted with the FOREIGN KEY constraint 'fkNote_Account'.") /\
  note (snd (spNoteCreate scenario_clock groceries orphan_db)) = [] /\
  ~ (forall env a db,
       first_violation db a = None ->
       exists id row,
         fst (spNoteCreate env a db) = inr (Some id) /\
         note (snd (spNoteCreate env a db)) = (note db ++ [row])%list).
Proof.
  split; [reflexivity|]. split; [reflexivity|].
  split; [reflexivity|]. split; [reflexivity|]. split; [reflexivity|].
  intros H.
  destruct (H scenario_clock groceries exhausted_db eq_refl) as (id & row & Hid & _).
  discriminate Hid.
Qed.

(* ================================================================== *)
(** ** The create operation: order of the validations *)
(* ================================================================== *)

(** The checks as the procedure evaluates them, on its parameters: a call
    fails with the message of the first violated one, leaving the store
    untouched; when none is violated it raises none of the six conditions; a
    violated check none of whose predecessors is violated decides the
    outcome. The last part states the same for the statements of the body on
    any values of its parameters. *)
Theorem spNoteCreate_first_violation_wins (env : sqlEnv) (a : procArgs) (db : database) :
  (match first_violation db a with
   | Some m => spNoteCreate env a db = (inl (mkErr 51000 m), db)
   | None => forall e, fst (spNoteCreate env a db) = inl e -> number e <> 51000
   end) /\
  (forall i m,
     nth_error (checks db a) i = Some (true, m) ->
     (forall j b m', (j < i)%nat -> nth_error (checks db a) j = Some (b, m') -> b = false) ->
     spNoteCreate env a db = (inl (mkErr 51000 m), db)) /\
  (forall i j mi mj,
     (i < j)%nat ->
     nth_error (checks db a) i = Some (true, mi) ->
     nth_error (checks db a) j = Some (true, mj) ->
     fst (spNoteCreate env a db) <> inl (mkErr 51000 mj)) /\
  (forall p i m,
     nth_error (validations db p) i = Some (true, m) ->
     (forall j b m', (j < i)%nat -> nth_error (validations db p) j = Some (b, m') ->
                     b = false) ->
     spNoteCreate_body env (arg_idAccount p) (arg_idUser p) (arg_title p) (arg_content p)
       (mkSession db None None) =
     (inl (mkErr 51000 m), mkSession db None None)).
Proof.
  assert (Hsome : forall m, first_violation db a = Some m ->
                            spNoteCreate env a db = (inl (mkErr 51000 m), db)).
  { intros m Hm. unfold spNoteCreate. rewrite spNoteCreate_run_phases, Hm. reflexivity. }
  split; [|split; [|split]].
  - destruct (first_violation db a) as [m|] eqn:Hv; [apply Hsome; reflexivity|].
    intros e He. unfold spNoteCreate in He. cbn [fst] in He.
    destruct (spNoteCreate_run_cases env a db)
      as [(m & Hm & _) | [(_ & _ & e' & n & s1 & Hr & _ & _ & Hnum)
                         | (_ & _ & ia & iu & t & c & _ & _ & _ & _ & Hr)]].
    + rewrite Hv in Hm. discriminate.
    + rewrite Hr in He. inversion He. subst. exact Hnum.
    + rewrite Hr in He. discriminate.
  - intros i m Hi Hbefore. apply Hsome. apply (first_of_earliest _ i); assumption.
  - intros i j mi mj Hij Hi Hj Hres.
    destruct (first_violation db a) as [m0|] eqn:Hm0.
    + rewrite (Hsome _ eq_refl) in Hres. inversion Hres. subst m0.
      destruct (first_of_position _ _ Hm0) as [k [Hk Hbefore]].
      pose proof (checks_messages_distinct db a) as Hnd.
      rewrite NoDup_nth_error in Hnd.
      assert (k = j).
      { apply Hnd.
        - rewrite length_map. apply nth_error_Some. rewrite Hk. discriminate.
        - rewrite (nth_error_message _ _ _ _ Hk), (nth_error_message _ _ _ _ Hj).
          reflexivity. }
      subst k. pose proof (Hbefore i true mi Hij Hi). discriminate.
    + unfold first_violation, first_of in Hm0.
      destruct (find fst (checks db a)) as [p|] eqn:Hf; [discriminate|].
      apply nth_error_In in Hi.
      pose proof (find_none _ _ Hf _ Hi) as Hc. discriminate.
  - intros p i m Hi Hbefore. apply spNoteCreate_body_rejects.
    apply (first_of_earliest _ i); assumption.
Qed.

Lemma spNoteCreate_first_violation_wins_witness :
  spNoteCreate scenario_clock (mkArgs (Some 1) (Some 9) (Some " ") None) scenario_db =
    (inl (mkErr 51000 "titleRequired"), scenario_db) /\
  fst (spNoteCreate scenario_clock (mkArgs (Some 1) (Some 9) (Some " ") None) scenario_db)
    <> inl (mkErr 51000 "userDoesNotBelongToAccount") /\
  spNoteCreate_body scenario_clock (Some 1) (Some 9) (Some (letters 256)) (Some "x")
    (mkSession scenario_db None None) =
    (inl (mkErr 51000 "titleExceedsMaxLength"), mkSession scenario_db None None).
Proof.
  pose proof (spNoteCreate_first_violation_wins scenario_clock
                (mkArgs (Some 1) (Some 9) (Some " ") None) scenario_db)
    as (_ & Hearliest & Hlater & Hbody).
  split; [|split].
  - apply (Hearliest 2%nat "titleRequired"); [reflexivity|].
    intros j b m' Hj Hn.
    destruct j as [|[|j]]; [inversion Hn; reflexivity|inversion Hn; reflexivity|lia].
  - apply (Hlater 2%nat 5%nat "titleRequired" "userDoesNotBelongToAccount");
      [lia|reflexivity|reflexivity].
  - apply (Hbody (mkArgs (Some 1) (Some 9) (Some (letters 256)) (Some "x")) 4%nat
             "titleExceedsMaxLength"); [vm_compute; reflexivity|].
    intros j b m' Hj Hn.
    destruct j as [|[|[|[|j]]]]; [| | | |lia];
      vm_compute in Hn; inversion Hn; reflexivity.
Defined.

(* ================================================================== *)
(** ** The create operation: the user of the account *)
(* ================================================================== *)

(** The sixth message is raised by the sixth check only. *)
Lemma userDoesNotBelongToAccount_raised_by (db : database) (a : procArgs) :
  first_violation db a = Some "userDoesNotBelongToAccount" ->
  first_of (input_checks a) = None /\ no_active_user db a = true.
Proof.
  unfold first_violation. rewrite checks_eq, first_of_app, input_checks_eq.
  unfold first_of. cbn [find fst snd option_map].
  repeat match goal with
         | |- context [if ?c then _ else _] => destruct c; cbn [option_map snd]
         end;
    try discriminate.
  intros _. split; reflexivity.
Qed.

(** A call fails with [userDoesNotBelongToAccount] only if no active user
    row of the given user and account exists, whatever the input. *)
Lemma userDoesNotBelongToAccount_only_if (env : sqlEnv) (a : procArgs) (db : database) :
  fst (spNoteCreate env a db) = inl (mkErr 51000 "userDoesNotBelongToAccount") ->
  ~ active_user_row db a.
Proof.
  intros Hres Hrow. apply EXISTS_user_spec in Hrow.
  unfold spNoteCreate in Hres. cbn [fst] in Hres.
  destruct (spNoteCreate_run_cases env a db)
    as [(m & Hm & Hr) | [(_ & _ & e' & n & s1 & Hr & _ & _ & Hnum)
                       | (_ & _ & ia & iu & t & c & _ & _ & _ & _ & Hr)]];
    rewrite Hr in Hres; cbn [fst] in Hres.
  - inversion Hres. subst m.
    destruct (userDoesNotBelongToAccount_raised_by db a Hm) as [_ Hno].
    unfold no_active_user in Hno. rewrite Hrow in Hno. discriminate.
  - inversion Hres. subst e'. apply Hnum. reflexivity.
  - discriminate.
Qed.

(** C4 (as amended). For every input that passes the five earlier checks
    (both identifiers present, title and content not blank, title within 255
    characters), a call fails with [userDoesNotBelongToAccount] exactly when
    no non-deleted user row has both the given user identifier and the given
    account identifier; so it fails this way when every row of that user is
    soft-deleted or belongs to another account. *)
Theorem userDoesNotBelongToAccount_exactly_when
    (env : sqlEnv) (a : procArgs) (db : database) :
  first_of (input_checks a) = None ->
  (fst (spNoteCreate env a db) = inl (mkErr 51000 "userDoesNotBelongToAccount")
   <-> ~ active_user_row db a) /\
  ((forall usr, In usr (user db) -> arg_idUser a = Some (usr_idUser usr) ->
      usr_deleted usr = true \/ arg_idAccount a <> Some (usr_idAccount usr)) ->
   spNoteCreate env a db = (inl (mkErr 51000 "userDoesNotBelongToAccount"), db)).
Proof.
  intros Hin.
  assert (Hif : ~ active_user_row db a ->
                spNoteCreate env a db =
                  (inl (mkErr 51000 "userDoesNotBelongToAccount"), db)).
  { intros Hno.
    assert (Hv : first_violation db a = Some "userDoesNotBelongToAccount").
    { unfold first_violation. rewrite checks_eq, first_of_app, Hin.
      unfold first_of, no_active_user. cbn [find fst].
      destruct (existsb (user_matches (arg_idUser a) (arg_idAccount a)) (user db)) eqn:Hex.
      - exfalso. apply Hno. apply EXISTS_user_spec. exact Hex.
      - reflexivity. }
    unfold spNoteCreate. rewrite spNoteCreate_run_phases, Hv. reflexivity. }
  split; [split|].
  - apply userDoesNotBelongToAccount_only_if.
  - intros Hno. rewrite (Hif Hno). reflexivity.
  - intros Hall. apply Hif. intros [usr (Hu & Hid & Hacc & Hdel)].
    destruct (Hall usr Hu Hid) as [Hd | Ha].
    + rewrite Hdel in Hd. discriminate.
    + apply Ha. exact Hacc.
Qed.

Lemma userDoesNotBelongToAccount_exactly_when_witness :
  first_of (input_checks (mkArgs (Some 1) (Some 6) (Some "Groceries") (Some "Milk, eggs")))
    = None /\
  spNoteCreate scenario_clock
      (mkArgs (Some 1) (Some 6) (Some "Groceries") (Some "Milk, eggs")) scenario_db =
    (inl (mkErr 51000 "userDoesNotBelongToAccount"), scenario_db) /\
  first_of (input_checks (mkArgs (Some 1) (Some 7) (Some "Groceries") (Some "Milk, eggs")))
    = None /\
  spNoteCreate scenario_clock
      (mkArgs (Some 1) (Some 7) (Some "Groceries") (Some "Milk, eggs")) scenario_db =
    (inl (mkErr 51000 "userDoesNotBelongToAccount"), scenario_db).
Proof.
  split; [reflexivity|]. split; [|split; [reflexivity|]].
  - apply (userDoesNotBelongToAccount_exactly_when scenario_clock
             (mkArgs (Some 1) (Some 6) (Some "Groceries") (Some "Milk, eggs")) scenario_db
             eq_refl).
    intros usr Hu Hid. cbn in Hu, Hid.
    destruct Hu as [<- | [<- | [<- | []]]]; try discriminate Hid.
    left. reflexivity.
  - apply (userDoesNotBelongToAccount_exactly_when scenario_clock
             (mkArgs (Some 1) (Some 7) (Some "Groceries") (Some "Milk, eggs")) scenario_db
             eq_refl).
    intros usr Hu Hid. cbn in Hu, Hid.
    destruct Hu as [<- | [<- | [<- | []]]]; try discriminate Hid.
    right. discriminate.
Defined.

(** C4 as stated fails: with an empty title and no matching user row, no
    user row of the account exists, yet the call fails with [titleRequired],
    the earlier check. *)
Lemma no_user_but_titleRequired :
  ~ active_user_row scenario_db (mkArgs (Some 1) (Some 9) (Some "") (Some "x")) /\
  spNoteCreate scenario_clock (mkArgs (Some 1) (Some 9) (Some "") (Some "x")) scenario_db =
    (inl (mkErr 51000 "titleRequired"), scenario_db) /\
  ~ (forall env a db,
       fst (spNoteCreate env a db) = inl (mkErr 51000 "userDoesNotBelongToAccount")
       <-> ~ active_user_row db a).
Proof.
  assert (Hno : ~ active_user_row scenario_db
                    (mkArgs (Some 1) (Some 9) (Some "") (Some "x"))).
  { intros Hrow. apply EXISTS_user_spec in Hrow. discriminate Hrow. }
  split; [exact Hno|]. split; [reflexivity|].
  intros H.
  destruct (H scenario_clock (mkArgs (Some 1) (Some 9) (Some "") (Some "x")) scenario_db)
    as [_ Hback].
  specialize (Hback Hno). discriminate Hback.
Qed.

(* ================================================================== *)
(** ** The create operation: the length of the title *)
(* ================================================================== *)

(** No call ever fails with [titleExceedsMaxLength]: the parameter holds at
    most 255 characters when the check reads it. *)
Lemma titleExceedsMaxLength_never_raised (env : sqlEnv) (a : procArgs) (db : database) :
  fst (spNoteCreate env a db) <> inl (mkErr 51000 "titleExceedsMaxLength").
Proof.
  intros Hres. unfold spNoteCreate in Hres. cbn [fst] in Hres.
  destruct (spNoteCreate_run_cases env a db)
    as [(m & Hm & Hr) | [(_ & _ & e' & n & s1 & Hr & _ & _ & Hnum)
                       | (_ & _ & ia & iu & t & c & _ & _ & _ & _ & Hr)]];
    rewrite Hr in Hres; cbn [fst] in Hres.
  - inversion Hres. subst m. revert Hm.
    unfold first_violation. rewrite checks_eq, first_of_app, input_checks_eq.
    unfold first_of. rewrite len_of_parameter.
    cbn [find fst snd option_map].
    repeat match goal with
           | |- context [if ?c then _ else _] => destruct c; cbn [option_map snd]
           end;
      discriminate.
  - inversion Hres. subst e'. apply Hnum. reflexivity.
  - discriminate.
Qed.

(** C5, evaluated. A title of 256 letters, with identifiers and content in
    order and an active user of the account, is not rejected: the call
    succeeds and stores the first 255 letters. With no such user the call
    fails with [userDoesNotBelongToAccount]. In neither case, nor in any
    other, is [titleExceedsMaxLength] raised. *)
Theorem title_of_256_characters_not_rejected :
  String.length (letters 256) = 256%nat /\
  spNoteCreate scenario_clock (mkArgs (Some 1) (Some 5) (Some (letters 256)) (Some "x"))
      scenario_db =
    (inr (Some 1),
     mkDb [1; 2] [mkUser 5 1 false; mkUser 6 1 true; mkUser 7 2 false]
          [mkNote 1 1 5 (letters 255) "x" 1000 1000 false] 1) /\
  spNoteCreate scenario_clock (mkArgs (Some 1) (Some 9) (Some (letters 256)) (Some "x"))
      scenario_db =
    (inl (mkErr 51000 "userDoesNotBelongToAccount"), scenario_db) /\
  (forall env a db,
     fst (spNoteCreate env a db) <> inl (mkErr 51000 "titleExceedsMaxLength")).
Proof.
  split; [vm_compute; reflexivity|].
  split; [vm_compute; reflexivity|].
  split; [vm_compute; reflexivity|].
  exact titleExceedsMaxLength_never_raised.
Qed.

(** The statement of the check is sound in itself: run on a value of 256
    letters, as a wider parameter would hold, the body raises
    [titleExceedsMaxLength]. The declared width of [@title] is what keeps
    such a value from reaching it. *)
Example length_check_on_a_wider_value :
  fst (spNoteCreate_body scenario_clock (Some 1) (Some 5) (Some (letters 256)) (Some "x")
         (mkSession scenario_db None None)) =
  inl (mkErr 51000 "titleExceedsMaxLength").
Proof. vm_compute. reflexivity. Qed.

(** The check itself stops short of the raw count: LEN leaves the trailing
    spaces out, so a letter followed by 255 spaces has length 1 for it. *)
Example LEN_ignores_trailing_spaces :
  String.length ("a" ++ string_of_list_ascii (repeat " "%char 255)) = 256%nat /\
  len_exceeds_255 (Some ("a" ++ string_of_list_ascii (repeat " "%char 255))) = false.
Proof. split; vm_compute; reflexivity. Qed.

(* ================================================================== *)
(** ** Identifiers *)
(* ================================================================== *)

(** A successful call, in full. *)
Lemma spNoteCreate_success (env : sqlEnv) (a : procArgs) (db db' : database)
    (r : option Z) :
  spNoteCreate env a db = (inr r, db') ->
  first_violation db a = None /\ insert_admitted db a = true /\
  exists ia iu t c,
    arg_idAccount a = Some ia /\ arg_idUser a = Some iu /\
    param_title a = Some t /\ arg_content a = Some c /\
    r = Some (noteIdentity db + 1) /\
    db' = mkDb (account db) (user db)
               (note db ++ [mkNote (noteIdentity db + 1) ia iu t c
                                   (GETUTCDATE env) (GETUTCDATE env) false])
               (noteIdentity db + 1).
Proof.
  unfold spNoteCreate. intros H.
  destruct (spNoteCreate_run_cases env a db)
    as [(m & _ & Hr) | [(_ & _ & e & n & s1 & Hr & _)
                       | (Hv & Hadm & ia & iu & t & c & Ha & Hu & Ht & Hc & Hr)]];
    rewrite Hr in H; cbn [fst snd data] in H; inversion H.
  split; [exact Hv|]. split; [exact Hadm|].
  exists ia, iu, t, c. repeat (split; [assumption|]). split; reflexivity.
Qed.

Lemma run_calls_cons (env : sqlEnv) (a : procArgs) (rest : list (sqlEnv * procArgs))
    (db : database) :
  run_calls ((env, a) :: rest) db =
  (fst (spNoteCreate env a db) :: fst (run_calls rest (snd (spNoteCreate env a db))),
   snd (run_calls rest (snd (spNoteCreate env a db)))).
Proof.
  cbn [run_calls]. unfold spNoteCreate at 1. cbn [fst snd].
  change (data (snd (spNoteCreate_run env a db))) with (snd (spNoteCreate env a db)).
  destruct (run_calls rest (snd (spNoteCreate env a db))). reflexivity.
Qed.

(** Every identifier a run returns lies above the identity counter the run
    started from. *)
Lemma returned_ids_above (calls : list (sqlEnv * procArgs)) (db : database) :
  Forall (fun id => noteIdentity db < id) (returned_ids (fst (run_calls calls db))).
Proof.
  revert db. induction calls as [|[env a] rest IH]; intros db; [constructor|].
  rewrite run_calls_cons. cbn [fst].
  destruct (spNoteCreate_identity env a db) as [Hmono Hret].
  specialize (IH (snd (spNoteCreate env a db))).
  assert (Hrest : Forall (fun id => noteIdentity db < id)
                    (returned_ids (fst (run_calls rest (snd (spNoteCreate env a db)))))).
  { eapply Forall_impl; [|exact IH]. intros id Hid. cbv beta in Hid |- *. lia. }
  destruct (fst (spNoteCreate env a db)) as [e|[id|]] eqn:Hres; cbn [returned_ids];
    try exact Hrest.
  constructor; [|exact Hrest].
  destruct (Hret _ eq_refl) as [Hid Hlt]. injection Hid as Heq.
  rewrite Heq. exact Hlt.
Qed.

Lemma returned_ids_sorted (calls : list (sqlEnv * procArgs)) (db : database) :
  StronglySorted Z.lt (returned_ids (fst (run_calls calls db))).
Proof.
  revert db. induction calls as [|[env a] rest IH]; intros db; [constructor|].
  rewrite run_calls_cons. cbn [fst].
  destruct (spNoteCreate_identity env a db) as [_ Hret].
  destruct (fst (spNoteCreate env a db)) as [e|[id|]] eqn:Hres; cbn [returned_ids];
    try apply IH.
  constructor; [apply IH|].
  destruct (Hret _ eq_refl) as [Hid _]. injection Hid as Heq.
  rewrite Heq. apply returned_ids_above.
Qed.

Lemma sorted_NoDup (l : list Z) : StronglySorted Z.lt l -> NoDup l.
Proof.
  induction 1 as [|x l Hs IH Hall]; constructor; [|exact IH].
  intros Hin. rewrite Forall_forall in Hall. specialize (Hall x Hin). lia.
Qed.

(** No note carries an identifier above the identity counter. *)
Lemma reachable_ids_below (db : database) :
  reachable db -> Forall (fun r => nt_idNote r <= noteIdentity db) (note db).
Proof.
  induction 1 as [accounts users | db env a Hreach IH | db accounts users Hreach IH].
  - constructor.
  - unfold spNoteCreate. cbn [snd].
    destruct (spNoteCreate_run_cases env a db)
      as [(m & _ & Hr) | [(_ & _ & e & n & s1 & Hr & _ & Hn & _)
                         | (_ & _ & ia & iu & t & c & _ & _ & _ & _ & Hr)]];
      rewrite Hr; cbn [snd data note noteIdentity].
    + exact IH.
    + eapply Forall_impl; [|exact IH]. cbn. intros r Hle. lia.
    + apply Forall_app. split.
      * eapply Forall_impl; [|exact IH]. cbn. intros r Hle. lia.
      * constructor; [cbn; lia|constructor].
  - exact IH.
Qed.

(** The validations read the user table only. *)
Lemma first_violation_users (db db' : database) (a : procArgs) :
  user db' = user db -> first_violation db' a = first_violation db a.
Proof.
  intros H. unfold first_violation. rewrite !checks_eq. unfold no_active_user.
  rewrite H. reflexivity.
Qed.

(** An accepted input on a store that admits the row returns the next
    identity value. *)
Lemma spNoteCreate_returns_next (env : sqlEnv) (a : procArgs) (db : database) :
  first_violation db a = None ->
  insert_admitted db a = true ->
  fst (spNoteCreate env a db) = inr (Some (noteIdentity db + 1)).
Proof.
  intros Hv Hadm. unfold spNoteCreate. cbn [fst].
  destruct (spNoteCreate_run_cases env a db)
    as [(m & Hm & _) | [(_ & Hno & _)
                       | (_ & _ & ia & iu & t & c & _ & _ & _ & _ & Hr)]].
  - rewrite Hv in Hm. discriminate.
  - rewrite Hadm in Hno. discriminate.
  - rewrite Hr. reflexivity.
Qed.

(** After a successful call on a reachable store, the same input is admitted
    again as long as the identity column has an INTEGER left. *)
Lemma admitted_again (env : sqlEnv) (a : procArgs) (db db1 : database) (id1 : Z) :
  reachable db ->
  spNoteCreate env a db = (inr (Some id1), db1) ->
  id1 < INT_MAX ->
  first_violation db1 a = None /\ insert_admitted db1 a = true /\ noteIdentity db1 = id1.
Proof.
  intros Hreach Hcall Hmax.
  pose proof (reachable_ids_below _ Hreach) as Hbelow.
  destruct (spNoteCreate_success _ _ _ _ _ Hcall)
    as (Hv & Hadm & ia & iu & t & c & Ha & Hu & Ht & Hc & Hid & Hdb).
  injection Hid as Hid. subst db1. cbn [noteIdentity].
  split; [|split; [|symmetry; exact Hid]].
  - rewrite <- Hv. apply first_violation_users. reflexivity.
  - unfold insert_admitted in *. cbn [noteIdentity]. rewrite Ha in *.
    apply andb_true_iff in Hadm. destruct Hadm as [Hadm Hfk].
    apply andb_true_iff. split; [apply andb_true_iff; split|].
    + apply Z.leb_le. lia.
    + apply negb_true_iff. unfold pkNote_violation. cbn [note].
      rewrite existsb_app. apply orb_false_iff. split.
      * destruct (existsb _ (note db)) eqn:Hex; [|reflexivity].
        apply existsb_exists in Hex. destruct Hex as [r [Hin Heq]].
        rewrite Forall_forall in Hbelow. specialize (Hbelow r Hin).
        apply Z.eqb_eq in Heq. lia.
      * cbn. apply orb_false_iff. split; [apply Z.eqb_neq; lia|reflexivity].
    + exact Hfk.
Qed.

(** C7. In any run of calls the identifiers returned by the successful ones
    are strictly increasing, hence pairwise distinct. In particular two
    successful calls with the same input, one after the other, return two
    distinct identifiers and leave two distinct rows that carry them; and on
    a reachable store the second call does succeed, with the next
    identifier, unless the first one returned the last INTEGER. *)
Theorem identifiers_strictly_increase :
  (forall calls db,
     StronglySorted Z.lt (returned_ids (fst (run_calls calls db))) /\
     NoDup (returned_ids (fst (run_calls calls db)))) /\
  (forall env1 env2 a db id1 id2 db1 db2,
     spNoteCreate env1 a db = (inr (Some id1), db1) ->
     spNoteCreate env2 a db1 = (inr (Some id2), db2) ->
     id1 < id2 /\
     exists r1 r2,
       note db2 = (note db ++ [r1; r2])%list /\
       nt_idNote r1 = id1 /\ nt_idNote r2 = id2 /\ r1 <> r2 /\
       nt_title r1 = nt_title r2 /\ nt_content r1 = nt_content r2) /\
  (forall env1 env2 a db id1 db1,
     reachable db ->
     spNoteCreate env1 a db = (inr (Some id1), db1) ->
     id1 < INT_MAX ->
     fst (spNoteCreate env2 a db1) = inr (Some (id1 + 1))).
Proof.
  split; [|split].
  - intros calls db. split; [apply returned_ids_sorted|].
    apply sorted_NoDup, returned_ids_sorted.
  - intros env1 env2 a db id1 id2 db1 db2 H1 H2.
    destruct (spNoteCreate_success _ _ _ _ _ H1)
      as (_ & _ & ia & iu & t & c & Ha & Hu & Ht & Hc & Hid1 & Hdb1).
    destruct (spNoteCreate_success _ _ _ _ _ H2)
      as (_ & _ & ia' & iu' & t' & c' & Ha' & Hu' & Ht' & Hc' & Hid2 & Hdb2).
    rewrite Ha in Ha'. rewrite Hu in Hu'. rewrite Ht in Ht'. rewrite Hc in Hc'.
    injection Ha' as <-. injection Hu' as <-. injection Ht' as <-. injection Hc' as <-.
    injection Hid1 as Hid1. injection Hid2 as Hid2.
    rewrite Hdb1 in Hid2, Hdb2. cbn [noteIdentity note account user] in Hid2, Hdb2.
    split; [lia|].
    eexists. eexists. split.
    + rewrite Hdb2. cbn [note]. rewrite <- app_assoc. reflexivity.
    + cbn. repeat split; try (symmetry; assumption); try lia.
      intros Heq. injection Heq. lia.
  - intros env1 env2 a db id1 db1 Hreach H1 Hmax.
    destruct (admitted_again _ _ _ _ _ Hreach H1 Hmax) as (Hv & Hadm & Hid).
    rewrite <- Hid. apply spNoteCreate_returns_next; assumption.
Qed.

Lemma identifiers_strictly_increase_witness :
  returned_ids
    (fst (run_calls
            [ (scenario_clock, groceries);
              (scenario_clock, mkArgs (Some 1) (Some 5) (Some "") (Some "x"));
              (mkSqlEnv 1001, groceries) ]
            scenario_db)) = [1; 2] /\
  StronglySorted Z.lt [1; 2] /\
  fst (spNoteCreate (mkSqlEnv 1001) groceries
         (snd (spNoteCreate scenario_clock groceries scenario_db))) = inr (Some 2).
Proof.
  split; [reflexivity|].
  destruct identifiers_strictly_increase as (Hrun & _ & Hagain).
  split.
  - exact (proj1 (Hrun [ (scenario_clock, groceries);
                         (scenario_clock, mkArgs (Some 1) (Some 5) (Some "") (Some "x"));
                         (mkSqlEnv 1001, groceries) ]
                       scenario_db)).
  - apply (Hagain scenario_clock (mkSqlEnv 1001) groceries scenario_db 1).
    + apply reachable_empty.
    + reflexivity.
    + reflexivity.
Defined.

(* ================================================================== *)
(** ** Timestamps *)
(* ================================================================== *)

(** C8. In every store the procedure can produce, each note row has
    [dateCreated <= dateModified], the two being equal; and the row a call
    adds has both set to the reading of the clock that call took. *)
Theorem dateCreated_le_dateModified :
  (forall db, reachable db ->
     forall r, In r (note db) ->
       nt_dateCreated r <= nt_dateModified r /\ nt_dateCreated r = nt_dateModified r) /\
  (forall env a db row,
     note (snd (spNoteCreate env a db)) = (note db ++ [row])%list ->
     nt_dateCreated row = GETUTCDATE env /\ nt_dateModified row = GETUTCDATE env).
Proof.
  assert (Hnew : forall env a db row,
             note (snd (spNoteCreate env a db)) = (note db ++ [row])%list ->
             nt_dateCreated row = GETUTCDATE env /\ nt_dateModified row = GETUTCDATE env).
  { intros env a db row Hrow.
    destruct (spNoteCreate_notes env a db) as [Hsame | (row' & Hadd & _ & Hc & Hm & _)].
    - rewrite Hsame in Hrow. apply (f_equal (@List.length noteRow)) in Hrow.
      rewrite length_app in Hrow. cbn in Hrow. lia.
    - rewrite Hadd in Hrow. apply app_inv_head in Hrow. injection Hrow as <-.
      split; assumption. }
  split; [|exact Hnew].
  induction 1 as [accounts users | db env a Hreach IH | db accounts users Hreach IH];
    intros r Hin.
  - destruct Hin.
  - destruct (spNoteCreate_notes env a db) as [Hsame | (row & Hadd & _)].
    + rewrite Hsame in Hin. apply IH. exact Hin.
    + pose proof (Hnew env a db row Hadd) as [Hc Hm].
      rewrite Hadd in Hin. apply in_app_or in Hin. destruct Hin as [Hin | [<- | []]].
      * apply IH. exact Hin.
      * rewrite Hc, Hm. split; [lia|reflexivity].
  - apply IH. exact Hin.
Qed.

Lemma dateCreated_le_dateModified_witness :
  reachable (snd (spNoteCreate scenario_clock groceries scenario_db)) /\
  In (groceries_row 1) (note (snd (spNoteCreate scenario_clock groceries scenario_db))) /\
  nt_dateCreated (groceries_row 1) <= nt_dateModified (groceries_row 1).
Proof.
  assert (Hreach : reachable (snd (spNoteCreate scenario_clock groceries scenario_db))).
  { apply reachable_create. apply reachable_empty. }
  split; [exact Hreach|]. split; [left; reflexivity|].
  apply (proj1 dateCreated_le_dateModified _ Hreach). left. reflexivity.
Defined.

(* ================================================================== *)
(** ** The schema of the request body *)
(* ================================================================== *)

Lemma parse_id_spec (g : string) (v : value) :
  (parse_id g v = [] <-> is_positive_integer v = true) /\
  (forall i, In i (parse_id g v) -> path i = [g]).
Proof.
  unfold parse_id, is_positive_integer.
  destruct v as [| |b|n|s|l|o]; try (split; [split; discriminate|]);
    try (intros i [<- | []]; reflexivity).
  destruct n as [|neg|q].
  - split; [split; discriminate|]. intros i [<- | []]; reflexivity.
  - cbn [isInteger isPositive andb app]. split; [split; discriminate|].
    intros i Hi. destruct neg; cbn in Hi; intuition (subst; reflexivity).
  - destruct (isInteger (Finite q)), (isPositive (Finite q)); cbn [app andb];
      (split; [split; (reflexivity || discriminate)|]);
      intros i Hi; cbn in Hi; intuition (subst; reflexivity).
Qed.

Lemma parse_string_spec (g : string) (lo : nat) (hi : option nat) (v : value) :
  (parse_string g lo hi v = [] <-> is_string_of_length lo hi v = true) /\
  (forall i, In i (parse_string g lo hi v) -> path i = [g]).
Proof.
  unfold parse_string, is_string_of_length.
  destruct v as [| |b|n|s|l|o]; try (split; [split; discriminate|]);
    try (intros i [<- | []]; reflexivity).
  destruct (Nat.ltb_spec (String.length s) lo) as [Hlo | Hlo].
  - replace (Nat.leb lo (String.length s)) with false
      by (symmetry; apply Nat.leb_gt; exact Hlo).
    cbn [app andb]. split; [split; discriminate|].
    intros i Hi. destruct hi as [h|]; [destruct (Nat.ltb h (String.length s))|];
      cbn in Hi; intuition (subst; reflexivity).
  - replace (Nat.leb lo (String.length s)) with true
      by (symmetry; apply Nat.leb_le; exact Hlo).
    cbn [app andb]. destruct hi as [h|].
    + destruct (Nat.ltb_spec h (String.length s)) as [Hhi | Hhi].
      * replace (Nat.leb (String.length s) h) with false
          by (symmetry; apply Nat.leb_gt; exact Hhi).
        split; [split; discriminate|]. intros i [<- | []]; reflexivity.
      * replace (Nat.leb (String.length s) h) with true
          by (symmetry; apply Nat.leb_le; exact Hhi).
        split; [split; reflexivity|]. intros i [].
    + split; [split; reflexivity|]. intros i [].
Qed.

(** A parser of one field reports that field exactly when its value breaks
    the condition on it. *)
Lemma field_reported (g : string) (valid : bool) (issues : list ZodIssue) (f : string) :
  (issues = [] <-> valid = true) ->
  (forall i, In i issues -> path i = [g]) ->
  (In [f] (map path issues) <-> f = g /\ valid = false).
Proof.
  intros Hnil Hpath. split.
  - intros Hin. apply in_map_iff in Hin. destruct Hin as [i [Hp Hi]].
    rewrite (Hpath i Hi) in Hp. injection Hp as ->. split; [reflexivity|].
    destruct valid; [|reflexivity].
    rewrite (proj2 Hnil eq_refl) in Hi. destruct Hi.
  - intros [-> Hv]. destruct issues as [|i rest].
    + rewrite (proj1 Hnil eq_refl) in Hv. discriminate.
    + left. apply Hpath. left. reflexivity.
Qed.

Lemma field_valid_cases (fields : list (string * value)) (f : string) :
  field_valid fields f = false <->
  (f = "idAccount" /\ is_positive_integer (get fields "idAccount") = false) \/
  (f = "idUser" /\ is_positive_integer (get fields "idUser") = false) \/
  (f = "title" /\ is_string_of_length 1 (Some 255%nat) (get fields "title") = false) \/
  (f = "content" /\ is_string_of_length 1 None (get fields "content") = false).
Proof.
  unfold field_valid.
  destruct (String.eqb_spec f "idAccount") as [-> | H1];
    [split; [intros H; left; split; [reflexivity|exact H]
            |intros [[_ H] | [[H _] | [[H _] | [H _]]]]; try discriminate H; exact H]|].
  destruct (String.eqb_spec f "idUser") as [-> | H2];
    [split; [intros H; right; left; split; [reflexivity|exact H]
            |intros [[H _] | [[_ H] | [[H _] | [H _]]]]; try discriminate H; exact H]|].
  destruct (String.eqb_spec f "title") as [-> | H3];
    [split; [intros H; right; right; left; split; [reflexivity|exact H]
            |intros [[H _] | [[H _] | [[_ H] | [H _]]]]; try discriminate H; exact H]|].
  destruct (String.eqb_spec f "content") as [-> | H4];
    [split; [intros H; right; right; right; split; [reflexivity|exact H]
            |intros [[H _] | [[H _] | [[H _] | [_ H]]]]; try discriminate H; exact H]|].
  split; [discriminate|]. intros [[H _] | [[H _] | [[H _] | [H _]]]]; contradiction.
Qed.

(** The issues of an object name exactly the fields that break their
    condition. *)
Lemma bodySchema_issues_fields (fields : list (string * value)) (f : string) :
  In [f] (map path (bodySchema_issues (VObject fields))) <-> field_valid fields f = false.
Proof.
  rewrite field_valid_cases. cbn [bodySchema_issues].
  rewrite !map_app, !in_app_iff.
  destruct (parse_id_spec "idAccount" (get fields "idAccount")) as [Ha Hpa].
  destruct (parse_id_spec "idUser" (get fields "idUser")) as [Hu Hpu].
  destruct (parse_string_spec "title" 1 (Some 255%nat) (get fields "title")) as [Ht Hpt].
  destruct (parse_string_spec "content" 1 None (get fields "content")) as [Hc Hpc].
  rewrite (field_reported _ _ _ f Ha Hpa), (field_reported _ _ _ f Hu Hpu),
    (field_reported _ _ _ f Ht Hpt), (field_reported _ _ _ f Hc Hpc).
  reflexivity.
Qed.

(** The schema accepts a body exactly when it is structurally valid. *)
Lemma bodySchema_issues_nil (body : value) :
  bodySchema_issues body = [] <-> structurally_valid body = true.
Proof.
  destruct body as [| |b|n|s|l|fields]; try (split; discriminate).
  cbn [bodySchema_issues structurally_valid forallb].
  unfold field_valid. cbn [String.eqb Ascii.eqb Bool.eqb].
  destruct (parse_id_spec "idAccount" (get fields "idAccount")) as [Ha _].
  destruct (parse_id_spec "idUser" (get fields "idUser")) as [Hu _].
  destruct (parse_string_spec "title" 1 (Some 255%nat) (get fields "title")) as [Ht _].
  destruct (parse_string_spec "content" 1 None (get fields "content")) as [Hc _].
  rewrite !andb_true_iff, <- Ha, <- Hu, <- Ht, <- Hc.
  split.
  - intros H. apply app_eq_nil in H. destruct H as [H1 H].
    apply app_eq_nil in H. destruct H as [H2 H].
    apply app_eq_nil in H. destruct H as [H3 H4]. tauto.
  - intros (H1 & H2 & H3 & H4 & _). rewrite H1, H2, H3, H4. reflexivity.
Qed.

Lemma bodySchema_parse_cases (body : value) :
  (structurally_valid body = false /\ bodySchema_issues body <> [] /\
   bodySchema_parse body = inl (bodySchema_issues body))
  \/
  (structurally_valid body = true /\
   exists fields,
     body = VObject fields /\
     bodySchema_parse body =
       inr (mkRequest (number_of (get fields "idAccount")) (number_of (get fields "idUser"))
                      (string_of (get fields "title")) (string_of (get fields "content")))).
Proof.
  pose proof (bodySchema_issues_nil body) as Hnil.
  unfold bodySchema_parse.
  destruct (bodySchema_issues body) as [|i rest] eqn:Hi.
  - right. split; [apply Hnil; reflexivity|].
    destruct body as [| |b|n|s|l|fields]; try discriminate Hi.
    exists fields. split; reflexivity.
  - left. split.
    + destruct (structurally_valid body); [|reflexivity].
      destruct Hnil as [_ Hnil]. discriminate (Hnil eq_refl).
    + split; [discriminate|]. destruct body; reflexivity.
Qed.

(* ================================================================== *)
(** ** The service adapter *)
(* ================================================================== *)

(** Every message a validation raises is one of the six conditions. *)
Lemma first_violation_condition (db : database) (a : procArgs) (m : string) :
  first_violation db a = Some m -> In (mkErr 51000 m) business_rule_conditions.
Proof.
  unfold first_violation. rewrite checks_eq, input_checks_eq.
  unfold first_of. cbn [app find fst snd].
  repeat match goal with
         | |- context [if ?c then _ else _] => destruct c; cbn [option_map snd]
         end;
    intros H; inversion H; cbn; tauto.
Qed.

(** The errors of the procedure: one of the six conditions, raised before
    anything is written, or an error of another number. *)
Lemma spNoteCreate_errors (env : sqlEnv) (a : procArgs) (db db' : database) (e : sqlError) :
  spNoteCreate env a db = (inl e, db') ->
  (In e business_rule_conditions /\ db' = db /\
   first_violation db a = Some (message e) /\ number e = 51000)
  \/ number e <> 51000.
Proof.
  unfold spNoteCreate. intros H.
  destruct (spNoteCreate_run_cases env a db)
    as [(m & Hm & Hr) | [(_ & _ & e' & n & s1 & Hr & _ & _ & Hnum)
                       | (_ & _ & ia & iu & t & c & _ & _ & _ & _ & Hr)]];
    rewrite Hr in H; cbn [fst snd data] in H; [| |discriminate H];
    injection H as He Hdb; rewrite <- He.
  - left. split; [apply (first_violation_condition db a); exact Hm|].
    split; [symmetry; exact Hdb|]. split; [exact Hm|reflexivity].
  - right. exact Hnum.
Qed.

(** The adapter hands the call to the procedure and gives back what it
    selected, or raises what it raised; an identifier outside the INTEGER
    range never reaches the procedure. *)
Lemma noteCreate_cases (env : jsEnv) (v : NoteCreateRequest) (db : database) :
  (exists e, noteCreate env v db = (inl (RequestError e), db) /\ number e = 8114 /\
             (idAccount v < - INT_MAX - 1 \/ INT_MAX < idAccount v \/
              idUser v < - INT_MAX - 1 \/ INT_MAX < idUser v))
  \/
  (- INT_MAX - 1 <= idAccount v <= INT_MAX /\ - INT_MAX - 1 <= idUser v <= INT_MAX /\
   noteCreate env v db =
   match
     spNoteCreate (sqlClock env)
       (mkArgs (Some (idAccount v)) (Some (idUser v)) (Some (title v)) (Some (content v))) db
   with
   | (inl e, db') => (inl (RequestError e), db')
   | (inr idNote, db') =>
       (inr (VObject [("idNote",
                       match idNote with Some id => VNumber (ofZ id) | None => VNull end)]),
        db')
   end).
Proof.
  unfold noteCreate, dbRequest, execute, to_INTEGER.
  cbn [String.eqb Ascii.eqb Bool.eqb].
  destruct ((idAccount v <? - INT_MAX - 1) || (INT_MAX <? idAccount v)) eqn:Ha.
  - left. eexists. split; [reflexivity|]. split; [reflexivity|].
    apply orb_true_iff in Ha. destruct Ha as [Ha | Ha]; apply Z.ltb_lt in Ha; tauto.
  - destruct ((idUser v <? - INT_MAX - 1) || (INT_MAX <? idUser v)) eqn:Hu.
    + left. eexists. split; [reflexivity|]. split; [reflexivity|].
      apply orb_true_iff in Hu. destruct Hu as [Hu | Hu]; apply Z.ltb_lt in Hu; tauto.
    + right.
      apply orb_false_iff in Ha. destruct Ha as [Ha1 Ha2].
      apply orb_false_iff in Hu. destruct Hu as [Hu1 Hu2].
      apply Z.ltb_ge in Ha1, Ha2, Hu1, Hu2.
      split; [lia|]. split; [lia|].
      destruct (spNoteCreate (sqlClock env) _ db) as [[e | idNote] db']; reflexivity.
Qed.

(** What the adapter raises is a request error: one of the six conditions,
    raised on an untouched store, or an error of another number. *)
Lemma noteCreate_errors (env : jsEnv) (v : NoteCreateRequest) (db db' : database)
    (error : jsError) :
  noteCreate env v db = (inl error, db') ->
  exists e,
    error = RequestError e /\
    ((In e business_rule_conditions /\ number e = 51000 /\ db' = db) \/ number e <> 51000).
Proof.
  intros H.
  destruct (noteCreate_cases env v db) as [(e & He & Hnum & _) | (_ & _ & Heq)].
  - rewrite He in H. injection H as Herr Hdb. exists e. split; [symmetry; exact Herr|].
    right. rewrite Hnum. discriminate.
  - rewrite Heq in H.
    destruct (spNoteCreate (sqlClock env) _ db) as [[e | idNote] db1] eqn:Hsp;
      [|discriminate H].
    injection H as Herr Hdb. exists e. split; [symmetry; exact Herr|].
    destruct (spNoteCreate_errors _ _ _ _ _ Hsp) as [(Hin & Hdb1 & _ & Hnum) | Hnum].
    + left. split; [exact Hin|]. split; [exact Hnum|]. rewrite <- Hdb. exact Hdb1.
    + right. exact Hnum.
Qed.

(** The six conditions carry the number 51000. *)
Lemma business_rule_number (e : sqlError) :
  In e business_rule_conditions -> number e = 51000.
Proof.
  cbn. intros H.
  repeat (destruct H as [<- | H]; [reflexivity|]). destruct H.
Qed.

(* ================================================================== *)
(** ** The controller *)
(* ================================================================== *)

(** The handler, by the outcome of the [try] block. *)
Lemma postHandlerWith_rejected (service : NoteService) (env : jsEnv) (body : value)
    (db : database) (issues : list ZodIssue) :
  bodySchema_parse body = inl issues ->
  postHandlerWith service env body db =
    (Responded 400
       (errorResponse env "Validation failed" (Some "VALIDATION_ERROR")
          (VArray (map issue_value issues))),
     db).
Proof.
  intros H. unfold postHandlerWith. rewrite H. reflexivity.
Qed.

Lemma postHandlerWith_parsed (service : NoteService) (env : jsEnv) (body : value)
    (db : database) (validated : NoteCreateRequest) :
  bodySchema_parse body = inr validated ->
  postHandlerWith service env body db =
    match service env validated db with
    | (inr data, db') => (Responded 201 (successResponse env data None), db')
    | (inl (ZodError errors), db') =>
        (Responded 400
           (errorResponse env "Validation failed" (Some "VALIDATION_ERROR")
              (VArray (map issue_value errors))),
         db')
    | (inl error, db') =>
        if match error_number error with Some n => n =? 51000 | None => false end
        then
          (Responded 400
             (errorResponse env (error_message error) (Some "BUSINESS_RULE_ERROR") VUndefined),
           db')
        else (Passed error, db')
    end.
Proof.
  intros H. unfold postHandlerWith. rewrite H. destruct validated as [ia iu t c].
  cbn [idAccount idUser title content].
  destruct (service env (mkRequest ia iu t c) db) as [[[errors | e | msg] | data] db'];
    reflexivity.
Qed.

Lemma map_VString_single (p : list string) (f : string) :
  map VString p = [VString f] -> p = [f].
Proof.
  destruct p as [|x [|y r]]; try discriminate. intros H. injection H as ->. reflexivity.
Qed.

(** C6. A body that fails the structural validation is answered 400 with
    [success] false, the code VALIDATION_ERROR, the message "Validation
    failed" and, as details, the issues of the schema, which name exactly the
    fields that break their condition (identifier not a positive integer,
    title not a string of 1 to 255 characters, content not a string of at
    least 1 character); the answer is the same whatever the service, which is
    not called, and the store is untouched. When the create operation raises
    one of its six conditions the answer is 400 with [success] false, the
    code BUSINESS_RULE_ERROR and the message of the condition. Every other
    failure of the create operation, and of any service, is handed to
    [next]. *)
Theorem postHandler_failure_mapping :
  (forall service env body db,
     structurally_valid body = false ->
     exists issues,
       issues <> [] /\
       postHandlerWith service env body db =
         (Responded 400 (validation_error_body env issues), db) /\
       prop (prop (validation_error_body env issues) "error") "code"
         = VString "VALIDATION_ERROR" /\
       (forall fields f,
          body = VObject fields ->
          ((exists d,
              In d (items (prop (prop (validation_error_body env issues) "error")
                                "details")) /\
              prop d "path" = VArray [VString f])
           <-> field_valid fields f = false))) /\
  (forall env body db validated e db',
     bodySchema_parse body = inr validated ->
     noteCreate env validated db = (inl (RequestError e), db') ->
     In e business_rule_conditions ->
     postHandler env body db =
       (Responded 400 (business_rule_error_body env (message e)), db) /\
     prop (prop (business_rule_error_body env (message e)) "error") "code"
       = VString "BUSINESS_RULE_ERROR" /\
     prop (prop (business_rule_error_body env (message e)) "error") "message"
       = VString (message e)) /\
  (forall env body db validated error db',
     bodySchema_parse body = inr validated ->
     noteCreate env validated db = (inl error, db') ->
     (forall e, error = RequestError e -> ~ In e business_rule_conditions) ->
     postHandler env body db = (Passed error, db')) /\
  (forall (service : NoteService) env body db validated error db',
     bodySchema_parse body = inr validated ->
     service env validated db = (inl error, db') ->
     (forall errors, error <> ZodError errors) ->
     error_number error <> Some 51000 ->
     postHandlerWith service env body db = (Passed error, db')).
Proof.
  split; [|split; [|split]].
  - intros service env body db Hinvalid.
    destruct (bodySchema_parse_cases body) as [(_ & Hne & Hparse) | (Hvalid & _)].
    + exists (bodySchema_issues body). split; [exact Hne|]. split.
      * exact (postHandlerWith_rejected service env body db _ Hparse).
      * split; [reflexivity|]. intros fields f ->.
        rewrite <- bodySchema_issues_fields.
        cbn [validation_error_body prop get String.eqb Ascii.eqb Bool.eqb items].
        split.
        -- intros (d & Hd & Hpath). apply in_map_iff in Hd.
           destruct Hd as (i & <- & Hi). cbn [prop get String.eqb Ascii.eqb Bool.eqb] in Hpath.
           injection Hpath as Hpath. apply map_VString_single in Hpath.
           apply in_map_iff. exists i. split; assumption.
        -- intros Hin. apply in_map_iff in Hin. destruct Hin as (i & Hp & Hi).
           eexists. split; [apply in_map_iff; exists i; split; [reflexivity|exact Hi]|].
           cbn [prop get String.eqb Ascii.eqb Bool.eqb]. rewrite Hp. reflexivity.
    + rewrite Hvalid in Hinvalid. discriminate.
  - intros env body db validated e db' Hparse Hcall Hin.
    split; [|split; reflexivity].
    unfold postHandler. rewrite (postHandlerWith_parsed _ _ _ _ _ Hparse), Hcall.
    cbn [error_number error_message]. rewrite (business_rule_number e Hin).
    cbn [Z.eqb Pos.eqb].
    destruct (noteCreate_errors _ _ _ _ _ Hcall) as (e' & He' & [(_ & _ & Hdb) | Hnum]).
    + rewrite Hdb. reflexivity.
    + injection He' as <-. rewrite (business_rule_number e Hin) in Hnum. contradiction.
  - intros env body db validated error db' Hparse Hcall Hother.
    unfold postHandler. rewrite (postHandlerWith_parsed _ _ _ _ _ Hparse), Hcall.
    destruct (noteCreate_errors _ _ _ _ _ Hcall) as (e & -> & [(Hin & _) | Hnum]).
    + exfalso. apply (Hother e eq_refl Hin).
    + cbn [error_number]. apply Z.eqb_neq in Hnum. rewrite Hnum. reflexivity.
  - intros service env body db validated error db' Hparse Hcall Hzod Hnum.
    rewrite (postHandlerWith_parsed _ _ _ _ _ Hparse), Hcall.
    destruct error as [errors | e | msg].
    + exfalso. apply (Hzod errors). reflexivity.
    + cbn [error_number] in *.
      destruct (number e =? 51000) eqn:Heq; [|reflexivity].
      apply Z.eqb_eq in Heq. rewrite Heq in Hnum. contradiction.
    + reflexivity.
Qed.

Lemma postHandler_failure_mapping_witness :
  structurally_valid (scenario_body "") = false /\
  postHandler scenario_env (scenario_body "") scenario_db =
    (Responded 400
       (VObject
          [ ("success", VBool false);
            ("error",
              VObject
                [ ("code", VString "VALIDATION_ERROR");
                  ("message", VString "Validation failed");
                  ("details",
                    VArray [ VObject [ ("code", VString "too_small");
                                       ("path", VArray [VString "title"]) ] ]) ]);
            ("timestamp", VString "2025-01-01T00:00:00.000Z") ]),
     scenario_db) /\
  (exists issues,
     postHandler scenario_env (scenario_body "") scenario_db =
       (Responded 400 (validation_error_body scenario_env issues), scenario_db) /\
     (exists d,
        In d (items (prop (prop (validation_error_body scenario_env issues) "error")
                          "details")) /\
        prop d "path" = VArray [VString "title"])) /\
  postHandler scenario_env (scenario_body " ") scenario_db =
    (Responded 400
       (VObject
          [ ("success", VBool false);
            ("error",
              VObject
                [ ("code", VString "BUSINESS_RULE_ERROR");
                  ("message", VString "titleRequired");
                  ("details", VUndefined) ]);
            ("timestamp", VString "2025-01-01T00:00:00.000Z") ]),
     scenario_db) /\
  postHandler scenario_env (scenario_body "Groceries") orphan_db =
    (Passed (RequestError (mkErr 547
       "The INSERT statement conflicted with the FOREIGN KEY constraint 'fkNote_Account'.")),
     mkDb [] [mkUser 5 1 false] [] 1).
Proof.
  destruct postHandler_failure_mapping as (Hshape & Hrule & Hother & _).
  split; [reflexivity|]. split; [reflexivity|]. split; [|split].
  - destruct (Hshape noteCreate scenario_env (scenario_body "") scenario_db eq_refl)
      as (issues & _ & Hresp & _ & Hfields).
    exists issues. split; [exact Hresp|].
    apply (Hfields _ "title" eq_refl). reflexivity.
  - exact (proj1 (Hrule scenario_env (scenario_body " ") scenario_db
                    (mkRequest 1 5 " " "Milk, eggs") (mkErr 51000 "titleRequired")
                    scenario_db eq_refl eq_refl
                    (or_intror (or_intror (or_introl eq_refl))))).
  - apply (Hother scenario_env (scenario_body "Groceries") orphan_db
             (mkRequest 1 5 "Groceries" "Milk, eggs")); [reflexivity|reflexivity|].
    intros e He Hin. injection He as <-.
    apply business_rule_number in Hin. discriminate Hin.
Defined.

(* ================================================================== *)
(** ** Blank texts *)
(* ================================================================== *)

Lemma RTRIM_spaces (s : string) : only_spaces s = true -> RTRIM s = "".
Proof.
  unfold only_spaces. induction s as [|c s IH]; [reflexivity|].
  cbn [list_ascii_of_string forallb RTRIM]. intros H.
  apply andb_true_iff in H. destruct H as [Hc Hs].
  rewrite (IH Hs), Hc. reflexivity.
Qed.

(** A text of spaces only is blank for the procedure. *)
Lemma only_spaces_blank (s : string) :
  only_spaces s = true -> trimmed_is_empty (Some s) = true.
Proof.
  intros H. unfold trimmed_is_empty. rewrite (RTRIM_spaces s H). reflexivity.
Qed.

Lemma RTRIM_empty_iff (s : string) : RTRIM s = "" <-> only_spaces s = true.
Proof.
  split; [|apply RTRIM_spaces].
  unfold only_spaces. induction s as [|c s IH]; [reflexivity|].
  cbn [RTRIM list_ascii_of_string forallb].
  destruct (RTRIM s) as [|c' r'] eqn:Hr.
  - destruct (is_space c); [intros _; apply IH; reflexivity|discriminate].
  - discriminate.
Qed.

Lemma only_spaces_LTRIM (s : string) : only_spaces (LTRIM s) = only_spaces s.
Proof.
  unfold only_spaces. induction s as [|c s IH]; [reflexivity|].
  cbn [LTRIM]. destruct (is_space c) eqn:Hc.
  - rewrite IH. cbn [list_ascii_of_string forallb]. rewrite Hc. reflexivity.
  - reflexivity.
Qed.

Lemma only_spaces_RTRIM (s : string) : only_spaces (RTRIM s) = only_spaces s.
Proof.
  induction s as [|c s IH]; [reflexivity|].
  cbn [RTRIM]. destruct (RTRIM s) as [|c' r'] eqn:Hr.
  - assert (Hs : only_spaces s = true) by (apply RTRIM_empty_iff; exact Hr).
    unfold only_spaces in *. cbn [list_ascii_of_string forallb]. rewrite Hs.
    destruct (is_space c) eqn:Hc; cbn [list_ascii_of_string forallb]; rewrite ?Hc;
      reflexivity.
  - unfold only_spaces in *. cbn [list_ascii_of_string forallb] in *.
    rewrite <- IH. reflexivity.
Qed.

(** The blank check of the procedure holds of the texts of spaces, the empty
    one among them, and of no other. *)
Lemma trimmed_is_empty_iff (s : string) :
  trimmed_is_empty (Some s) = only_spaces s.
Proof.
  unfold trimmed_is_empty, sql_string_eq. cbn [RTRIM].
  rewrite <- (only_spaces_RTRIM s), <- (only_spaces_LTRIM (RTRIM s)).
  destruct (only_spaces (LTRIM (RTRIM s))) eqn:Hb.
  - apply RTRIM_empty_iff in Hb. rewrite Hb. reflexivity.
  - destruct (String.eqb_spec (RTRIM (LTRIM (RTRIM s))) "") as [He | He]; [|reflexivity].
    apply RTRIM_empty_iff in He. rewrite He in Hb. discriminate.
Qed.

(** A positive integer of the schema is a positive [Z]. *)
Lemma positive_integer_number (v : value) :
  is_positive_integer v = true -> 0 < number_of v.
Proof.
  unfold is_positive_integer, number_of.
  destruct v as [| |b|n|s|l|o]; try discriminate.
  destruct n as [|neg|q]; try discriminate.
  cbn [isInteger isPositive toZ]. intros H.
  apply andb_true_iff in H. destruct H as [Hint Hpos].
  apply Z.eqb_eq in Hint. apply Z.ltb_lt in Hpos.
  apply Z.div_str_pos. split; [lia|].
  apply Z.mod_divide in Hint; [|lia].
  apply Z.divide_pos_le; assumption.
Qed.

(** C9 (as amended). A request whose identifiers are positive integers not
    above 2147483647, whose title is a string of 1 to 255 characters and
    whose content is a string of at least 1 character, and whose title or
    content is made of space characters (U+0020) only, passes the structural
    validation of the controller and is rejected by the blank check of the
    procedure: the procedure raises [titleRequired] when the title is of
    spaces only and [contentRequired] otherwise, and the client is answered
    400 with [success] false, the code BUSINESS_RULE_ERROR, not
    VALIDATION_ERROR, and that message, the store untouched. *)
Theorem blank_text_is_business_rule_error
    (env : jsEnv) (fields : list (string * value)) (db : database) (t c : string) :
  is_positive_integer (get fields "idAccount") = true ->
  number_of (get fields "idAccount") <= INT_MAX ->
  is_positive_integer (get fields "idUser") = true ->
  number_of (get fields "idUser") <= INT_MAX ->
  get fields "title" = VString t ->
  get fields "content" = VString c ->
  (1 <= String.length t <= 255)%nat ->
  (1 <= String.length c)%nat ->
  only_spaces t = true \/ only_spaces c = true ->
  structurally_valid (VObject fields) = true /\
  exists m,
    (only_spaces t = true -> m = "titleRequired") /\
    (only_spaces t = false -> m = "contentRequired") /\
    spNoteCreate (sqlClock env)
      (mkArgs (Some (number_of (get fields "idAccount")))
              (Some (number_of (get fields "idUser"))) (Some t) (Some c)) db
      = (inl (mkErr 51000 m), db) /\
    postHandler env (VObject fields) db =
      (Responded 400
         (VObject
            [ ("success", VBool false);
              ("error",
                VObject
                  [ ("code", VString "BUSINESS_RULE_ERROR");
                    ("message", VString m);
                    ("details", VUndefined) ]);
              ("timestamp", VString (toISOString env)) ]),
       db).
Proof.
  intros Ha Har Hu Hur Ht Hc Hlt Hlc Hblank.
  assert (Hvalid : structurally_valid (VObject fields) = true).
  { cbn [structurally_valid forallb]. unfold field_valid.
    cbn [String.eqb Ascii.eqb Bool.eqb]. rewrite Ha, Hu, Ht, Hc.
    unfold is_string_of_length.
    replace (Nat.leb 1 (String.length t)) with true by (symmetry; apply Nat.leb_le; lia).
    replace (Nat.leb (String.length t) 255) with true by (symmetry; apply Nat.leb_le; lia).
    replace (Nat.leb 1 (String.length c)) with true by (symmetry; apply Nat.leb_le; lia).
    reflexivity. }
  split; [exact Hvalid|].
  destruct (bodySchema_parse_cases (VObject fields))
    as [(Hinvalid & _) | (_ & fields' & Heq & Hparse)];
    [rewrite Hvalid in Hinvalid; discriminate|].
  injection Heq as <-. rewrite Ht, Hc in Hparse. cbn [string_of] in Hparse.
  pose proof (positive_integer_number _ Ha) as Hapos.
  pose proof (positive_integer_number _ Hu) as Hupos.
  set (ia := number_of (get fields "idAccount")) in *.
  set (iu := number_of (get fields "idUser")) in *.
  set (a := mkArgs (Some ia) (Some iu) (Some t) (Some c)).
  assert (Hfirst : exists m,
             (only_spaces t = true -> m = "titleRequired") /\
             (only_spaces t = false -> m = "contentRequired") /\
             first_violation db a = Some m).
  { unfold first_violation. rewrite checks_eq, input_checks_eq.
    unfold first_of, param_title, a.
    cbn [arg_idAccount arg_idUser arg_title arg_content option_map is_null app find fst
         orb].
    rewrite (nvarchar_short 255 t) by lia.
    rewrite (trimmed_is_empty_iff t).
    destruct (only_spaces t) eqn:Htb.
    - exists "titleRequired". cbn. split; [reflexivity|]. split; [discriminate|reflexivity].
    - destruct Hblank as [Hb | Hb]; [discriminate Hb|].
      rewrite (only_spaces_blank c Hb). exists "contentRequired". cbn.
      split; [discriminate|]. split; reflexivity. }
  destruct Hfirst as (m & Htitle & Hcontent & Hv).
  assert (Hsp : spNoteCreate (sqlClock env) a db = (inl (mkErr 51000 m), db)).
  { unfold spNoteCreate. rewrite spNoteCreate_run_phases, Hv. reflexivity. }
  exists m. split; [exact Htitle|]. split; [exact Hcontent|]. split; [exact Hsp|].
  unfold postHandler. rewrite (postHandlerWith_parsed _ _ _ _ _ Hparse).
  destruct (noteCreate_cases env (mkRequest ia iu t c) db)
    as [(e & _ & _ & Hrange) | (_ & _ & Hcall)].
  - cbn [idAccount idUser] in Hrange. unfold INT_MAX in *. lia.
  - rewrite Hcall. cbn [idAccount idUser title content]. fold a.
    rewrite Hsp. reflexivity.
Qed.

Lemma blank_text_is_business_rule_error_witness :
  only_spaces " " = true /\
  structurally_valid (scenario_body " ") = true /\
  postHandler scenario_env (scenario_body " ") scenario_db =
    (Responded 400
       (VObject
          [ ("success", VBool false);
            ("error",
              VObject
                [ ("code", VString "BUSINESS_RULE_ERROR");
                  ("message", VString "titleRequired");
                  ("details", VUndefined) ]);
            ("timestamp", VString "2025-01-01T00:00:00.000Z") ]),
     scenario_db).
Proof.
  split; [reflexivity|].
  destruct (blank_text_is_business_rule_error scenario_env
              [ ("idAccount", VNumber (ofZ 1)); ("idUser", VNumber (ofZ 5));
                ("title", VString " "); ("content", VString "Milk, eggs") ]
              scenario_db " " "Milk, eggs"
              eq_refl ltac:(vm_compute; discriminate)
              eq_refl ltac:(vm_compute; discriminate)
              eq_refl eq_refl ltac:(cbn; lia) ltac:(cbn; lia) (or_introl eq_refl))
    as (Hvalid & m & Htitle & _ & _ & Hresp).
  split; [exact Hvalid|]. rewrite <- (Htitle eq_refl). exact Hresp.
Defined.

(** C9 as stated fails, in three ways. A title made of one tab character is
    not empty and is white space only: the request passes the structural
    validation, the procedure does not find the title blank, and the note is
    created. A title of 256 spaces is not empty and is of spaces only: the
    request does not pass the structural validation and the answer is
    VALIDATION_ERROR. With a title of one space and an account identifier of
    3000000000 the request passes the structural validation, the identifier
    does not fit the INTEGER parameter, and the failure is handed to [next].
    So neither white space in general, nor spaces without the bound on the
    title, nor spaces without the bound on the identifiers, give
    BUSINESS_RULE_ERROR. *)
Lemma blank_text_other_answers :
  (only_whitespace (String "009"%char "") = true /\
   structurally_valid (scenario_body (String "009"%char "")) = true /\
   postHandler scenario_env (scenario_body (String "009"%char "")) scenario_db =
     (Responded 201
        (VObject
           [ ("success", VBool true);
             ("data", VObject [("idNote", VNumber (ofZ 1))]);
             ("metadata", VObject [("timestamp", VString "2025-01-01T00:00:00.000Z")]) ]),
      mkDb [1; 2] [mkUser 5 1 false; mkUser 6 1 true; mkUser 7 2 false]
           [mkNote 1 1 5 (String "009"%char "") "Milk, eggs" 1000 1000 false] 1)) /\
  (only_spaces (spaces 256) = true /\
   String.length (spaces 256) = 256%nat /\
   structurally_valid (scenario_body (spaces 256)) = false /\
   postHandler scenario_env (scenario_body (spaces 256)) scenario_db =
     (Responded 400
        (VObject
           [ ("success", VBool false);
             ("error",
               VObject
                 [ ("code", VString "VALIDATION_ERROR");
                   ("message", VString "Validation failed");
                   ("details",
                     VArray [ VObject [ ("code", VString "too_big");
                                        ("path", VArray [VString "title"]) ] ]) ]);
             ("timestamp", VString "2025-01-01T00:00:00.000Z") ]),
      scenario_db)) /\
  (structurally_valid
     (VObject [ ("idAccount", VNumber (ofZ 3000000000)); ("idUser", VNumber (ofZ 5));
                ("title", VString " "); ("content", VString "Milk, eggs") ]) = true /\
   exists e,
     number e <> 51000 /\
     postHandler scenario_env
       (VObject [ ("idAccount", VNumber (ofZ 3000000000)); ("idUser", VNumber (ofZ 5));
                  ("title", VString " "); ("content", VString "Milk, eggs") ])
       scenario_db
     = (Passed (RequestError e), scenario_db)) /\
  ~ (forall env fields db t c,
       is_positive_integer (get fields "idAccount") = true ->
       number_of (get fields "idAccount") <= INT_MAX ->
       is_positive_integer (get fields "idUser") = true ->
       number_of (get fields "idUser") <= INT_MAX ->
       get fields "title" = VString t ->
       get fields "content" = VString c ->
       (1 <= String.length t <= 255)%nat ->
       (1 <= String.length c)%nat ->
       only_whitespace t = true \/ only_whitespace c = true ->
       exists status body,
         fst (postHandler env (VObject fields) db) = Responded status body /\
         prop (prop body "error") "code" = VString "BUSINESS_RULE_ERROR") /\
  ~ (forall env fields db t c,
       is_positive_integer (get fields "idAccount") = true ->
       number_of (get fields "idAccount") <= INT_MAX ->
       is_positive_integer (get fields "idUser") = true ->
       number_of (get fields "idUser") <= INT_MAX ->
       get fields "title" = VString t ->
       get fields "content" = VString c ->
       (1 <= String.length t)%nat ->
       (1 <= String.length c)%nat ->
       only_spaces t = true \/ only_spaces c = true ->
       exists status body,
         fst (postHandler env (VObject fields) db) = Responded status body /\
         prop (prop body "error") "code" = VString "BUSINESS_RULE_ERROR") /\
  ~ (forall env fields db t c,
       is_positive_integer (get fields "idAccount") = true ->
       is_positive_integer (get fields "idUser") = true ->
       get fields "title" = VString t ->
       get fields "content" = VString c ->
       (1 <= String.length t <= 255)%nat ->
       (1 <= String.length c)%nat ->
       only_spaces t = true \/ only_spaces c = true ->
       exists status body,
         fst (postHandler env (VObject fields) db) = Responded status body /\
         prop (prop body "error") "code" = VString "BUSINESS_RULE_ERROR").
Proof.
  split; [split; [reflexivity|split; reflexivity]|].
  split; [split; [reflexivity|split; [reflexivity|split; [reflexivity|]]]|].
  { vm_compute. reflexivity. }
  split.
  { split; [reflexivity|]. eexists. split; [|vm_compute; reflexivity].
    cbn [number]. discriminate. }
  split; [|split].
  - intros H.
    destruct (H scenario_env
                [ ("idAccount", VNumber (ofZ 1)); ("idUser", VNumber (ofZ 5));
                  ("title", VString (String "009"%char ""));
                  ("content", VString "Milk, eggs") ]
                scenario_db (String "009"%char "") "Milk, eggs"
                eq_refl ltac:(vm_compute; discriminate)
                eq_refl ltac:(vm_compute; discriminate)
                eq_refl eq_refl ltac:(cbn; lia) ltac:(cbn; lia) (or_introl eq_refl))
      as (status & body & Hresp & Hcode).
    vm_compute in Hresp. injection Hresp as _ <-. vm_compute in Hcode. discriminate Hcode.
  - intros H.
    destruct (H scenario_env
                [ ("idAccount", VNumber (ofZ 1)); ("idUser", VNumber (ofZ 5));
                  ("title", VString (spaces 256));
                  ("content", VString "Milk, eggs") ]
                scenario_db (spaces 256) "Milk, eggs"
                eq_refl ltac:(vm_compute; discriminate)
                eq_refl ltac:(vm_compute; discriminate)
                eq_refl eq_refl ltac:(vm_compute; lia) ltac:(cbn; lia)
                (or_introl (eq_refl : only_spaces (spaces 256) = true)))
      as (status & body & Hresp & Hcode).
    vm_compute in Hresp. injection Hresp as _ <-. vm_compute in Hcode. discriminate Hcode.
  - intros H.
    destruct (H scenario_env
                [ ("idAccount", VNumber (ofZ 3000000000)); ("idUser", VNumber (ofZ 5));
                  ("title", VString " "); ("content", VString "Milk, eggs") ]
                scenario_db " " "Milk, eggs"
                eq_refl eq_refl eq_refl eq_refl ltac:(cbn; lia) ltac:(cbn; lia)
                (or_introl eq_refl))
      as (status & body & Hresp & Hcode).
    vm_compute in Hresp. discriminate Hresp.
Qed.

(* ================================================================== *)
(** ** The success envelope *)
(* ================================================================== *)

(** C10. When the creation succeeds the controller answers 201 with the
    object [{ success: true, data: { idNote }, metadata: { timestamp } }] and
    nothing else in it, where [data] is the row the procedure selected, as the
    adapter returned it. *)
Theorem postHandler_created
    (env : jsEnv) (body : value) (db db' : database) (validated : NoteCreateRequest)
    (data : value) :
  bodySchema_parse body = inr validated ->
  noteCreate env validated db = (inr data, db') ->
  exists id,
    spNoteCreate (sqlClock env)
      (mkArgs (Some (idAccount validated)) (Some (idUser validated))
              (Some (title validated)) (Some (content validated))) db
      = (inr (Some id), db') /\
    data = VObject [("idNote", VNumber (ofZ id))] /\
    postHandler env body db =
      (Responded 201
         (VObject
            [ ("success", VBool true);
              ("data", VObject [("idNote", VNumber (ofZ id))]);
              ("metadata", VObject [("timestamp", VString (toISOString env))]) ]),
       db').
Proof.
  intros Hparse Hcall.
  destruct (noteCreate_cases env validated db) as [(e & He & _) | (_ & _ & Heq)].
  - rewrite He in Hcall. discriminate.
  - rewrite Heq in Hcall.
    destruct (spNoteCreate (sqlClock env) _ db) as [[e | idNote] db1] eqn:Hsp;
      [discriminate Hcall|].
    injection Hcall as Hdata Hdb.
    destruct (spNoteCreate_success _ _ _ _ _ Hsp)
      as (_ & _ & ia & iu & t & c & _ & _ & _ & _ & Hid & _).
    exists (noteIdentity db + 1). subst idNote db1. split; [reflexivity|].
    split; [symmetry; exact Hdata|].
    unfold postHandler. rewrite (postHandlerWith_parsed _ _ _ _ _ Hparse), Heq.
    reflexivity.
Qed.

Lemma postHandler_created_witness :
  bodySchema_parse (scenario_body "Groceries") = inr (mkRequest 1 5 "Groceries" "Milk, eggs") /\
  postHandler scenario_env (scenario_body "Groceries") scenario_db =
    (Responded 201 (created_envelope scenario_env 1),
     mkDb [1; 2] [mkUser 5 1 false; mkUser 6 1 true; mkUser 7 2 false]
          [groceries_row 1] 1).
Proof.
  split; [reflexivity|].
  destruct (postHandler_created scenario_env (scenario_body "Groceries") scenario_db
              (mkDb [1; 2] [mkUser 5 1 false; mkUser 6 1 true; mkUser 7 2 false]
                    [groceries_row 1] 1)
              (mkRequest 1 5 "Groceries" "Milk, eggs")
              (VObject [("idNote", VNumber (ofZ 1))]) eq_refl eq_refl)
    as (id & Hsp & Hdata & Hresp).
  injection Hdata as Hid. rewrite Hresp. unfold created_envelope.
  rewrite <- Hid. reflexivity.
Defined.

(* ================================================================== *)
(** ** Blank texts, exactly *)
(* ================================================================== *)

(* ================================================================== *)
(** ** The errors of the transaction *)
(* ================================================================== *)

(** What an accepted call does, constraint by constraint. *)
Lemma accepted_call_cases (env : sqlEnv) (a : procArgs) (db : database) :
  first_violation db a = None ->
  (INT_MAX < noteIdentity db + 1 /\
   fst (spNoteCreate env a db) = inl identity_overflow /\
   noteIdentity (snd (spNoteCreate env a db)) = noteIdentity db /\
   note (snd (spNoteCreate env a db)) = note db)
  \/
  (noteIdentity db + 1 <= INT_MAX /\
   pkNote_violation db (noteIdentity db + 1) = true /\
   fst (spNoteCreate env a db) = inl pkNote_violated /\
   noteIdentity (snd (spNoteCreate env a db)) = noteIdentity db + 1 /\
   note (snd (spNoteCreate env a db)) = note db)
  \/
  (noteIdentity db + 1 <= INT_MAX /\
   pkNote_violation db (noteIdentity db + 1) = false /\
   (exists ia, arg_idAccount a = Some ia /\ fkNote_Account_violation db ia = true) /\
   fst (spNoteCreate env a db) = inl fkNote_Account_violated /\
   noteIdentity (snd (spNoteCreate env a db)) = noteIdentity db + 1 /\
   note (snd (spNoteCreate env a db)) = note db)
  \/
  (noteIdentity db + 1 <= INT_MAX /\
   insert_admitted db a = true /\
   fst (spNoteCreate env a db) = inr (Some (noteIdentity db + 1)) /\
   noteIdentity (snd (spNoteCreate env a db)) = noteIdentity db + 1).
Proof.
  intros Hv.
  destruct (accepted_arguments db a Hv)
    as (ia & iu & t & c & Ha & Hu & Ht & Hc & _ & _ & _ & Hex).
  pose proof (matching_user_satisfies_fk db iu ia Hex) as Hfk.
  unfold spNoteCreate. cbn [fst snd].
  rewrite spNoteCreate_run_phases, Hv. unfold transaction_outcome, insert_admitted.
  rewrite Ha, Hu, Ht, Hc, INSERT_note_cases. cbn [data tran scopeIdentity].
  replace (fkNote_User_violation (set_identity db (noteIdentity db + 1)) iu)
    with false by (symmetry; exact Hfk).
  change (pkNote_violation (set_identity db (noteIdentity db + 1)) (noteIdentity db + 1))
    with (pkNote_violation db (noteIdentity db + 1)).
  change (fkNote_Account_violation (set_identity db (noteIdentity db + 1)) ia)
    with (fkNote_Account_violation db ia).
  destruct (INT_MAX <? noteIdentity db + 1) eqn:Hmax.
  - apply Z.ltb_lt in Hmax. left. repeat split; [exact Hmax].
  - apply Z.ltb_ge in Hmax. right.
    destruct (pkNote_violation db (noteIdentity db + 1)) eqn:Hpk.
    + left. repeat split; exact Hmax.
    + right. destruct (fkNote_Account_violation db ia) eqn:Hfa.
      * left. split; [exact Hmax|]. split; [reflexivity|].
        split; [exists ia; split; [reflexivity|exact Hfa]|]. repeat split.
      * right. split; [exact Hmax|].
        replace (noteIdentity db + 1 <=? INT_MAX) with true
          by (symmetry; apply Z.leb_le; exact Hmax).
        repeat split.
Qed.

(** The identity counter of a reachable store is an INTEGER from 0 on, and
    no row carries an identifier outside 1 .. the counter. *)
Lemma reachable_identity_range (db : database) :
  reachable db ->
  0 <= noteIdentity db <= INT_MAX /\
  Forall (fun r => 1 <= nt_idNote r <= noteIdentity db) (note db).
Proof.
  induction 1 as [accounts users | db env a Hreach IH | db accounts users Hreach IH].
  - split; [cbn; unfold INT_MAX; lia|constructor].
  - destruct IH as [Hrange Hrows].
    assert (Hkeep : forall n, noteIdentity db <= n ->
              Forall (fun r => 1 <= nt_idNote r <= n) (note db)).
    { intros n Hn. eapply Forall_impl; [|exact Hrows]. intros r Hr.
      cbv beta in Hr |- *. lia. }
    destruct (first_violation db a) as [m|] eqn:Hv.
    + unfold spNoteCreate. rewrite spNoteCreate_run_phases, Hv. cbn [snd data].
      split; assumption.
    + destruct (accepted_call_cases env a db Hv)
        as [(Hmax & _ & Hid & Hn) | [(Hmax & _ & _ & Hid & Hn)
           | [(Hmax & _ & _ & _ & Hid & Hn) | (Hmax & Hadm & Hres & Hid)]]];
        rewrite Hid; try rewrite Hn.
      * split; [lia|apply Hkeep; lia].
      * split; [lia|apply Hkeep; lia].
      * split; [lia|apply Hkeep; lia].
      * split; [lia|].
        destruct (spNoteCreate env a db) as [r db'] eqn:Hcall. cbn [fst snd] in *.
        subst r.
        destruct (spNoteCreate_success _ _ _ _ _ Hcall)
          as (_ & _ & ia & iu & t & c & _ & _ & _ & _ & _ & Hdb).
        rewrite Hdb. cbn [note]. apply Forall_app. split; [apply Hkeep; lia|].
        constructor; [cbn; lia|constructor].
  - exact IH.
Qed.

(** The first violation of a call whose two identifiers are present, check
    by check. *)
Lemma first_violation_present (db : database) (ia iu : Z) (t c : option string) :
  let a := mkArgs (Some ia) (Some iu) t c in
  first_violation db a =
  if title_blank a then Some "titleRequired"
  else if content_blank a then Some "contentRequired"
  else if no_active_user db a then Some "userDoesNotBelongToAccount"
  else None.
Proof.
  intros a. unfold first_violation. rewrite checks_eq, first_of_app, input_checks_eq.
  rewrite len_of_parameter. unfold first_of, title_blank, content_blank, param_title, a.
  cbn [arg_idAccount arg_idUser arg_title arg_content is_null find fst snd option_map].
  destruct t as [t|]; cbn [option_map is_null orb find fst snd]; [|reflexivity].
  rewrite trimmed_is_empty_iff.
  destruct (only_spaces (nvarchar 255 t)); cbn [find fst snd option_map]; [reflexivity|].
  destruct c as [c|]; cbn [is_null orb find fst snd option_map]; [|reflexivity].
  rewrite trimmed_is_empty_iff.
  destruct (only_spaces c); cbn [find fst snd option_map]; [reflexivity|].
  destruct (no_active_user _ _); reflexivity.
Qed.

(** A call that fails with one of the six conditions fails with the message
    of its first violation, and conversely. *)
Lemma fails_with_condition_iff (env : sqlEnv) (a : procArgs) (db : database) (m : string) :
  fst (spNoteCreate env a db) = inl (mkErr 51000 m) <-> first_violation db a = Some m.
Proof.
  split.
  - intros H. destruct (spNoteCreate env a db) as [r db'] eqn:Hcall. cbn [fst] in H.
    subst r. destruct (spNoteCreate_errors _ _ _ _ _ Hcall) as [(_ & _ & Hv & _) | Hnum].
    + exact Hv.
    + exfalso. apply Hnum. reflexivity.
  - intros Hv. unfold spNoteCreate. rewrite spNoteCreate_run_phases, Hv. reflexivity.
Qed.

(** X4. With both identifiers present, a call fails with [titleRequired]
    exactly when the title is NULL or its first 255 characters are spaces
    only (none at all included); and otherwise it fails with
    [contentRequired] exactly when the content is NULL or spaces only. *)
Theorem required_text_exactly_when
    (env : sqlEnv) (a : procArgs) (db : database) (ia iu : Z) :
  arg_idAccount a = Some ia ->
  arg_idUser a = Some iu ->
  (fst (spNoteCreate env a db) = inl (mkErr 51000 "titleRequired")
   <-> title_blank a = true) /\
  (title_blank a = false ->
   (fst (spNoteCreate env a db) = inl (mkErr 51000 "contentRequired")
    <-> content_blank a = true)).
Proof.
  intros Ha Hu. destruct a as [ia' iu' t c]. cbn in Ha, Hu. subst ia' iu'.
  rewrite !fails_with_condition_iff.
  pose proof (first_violation_present db ia iu t c) as Hfirst. cbv zeta in Hfirst.
  rewrite Hfirst.
  destruct (title_blank (mkArgs (Some ia) (Some iu) t c));
    destruct (content_blank (mkArgs (Some ia) (Some iu) t c));
    destruct (no_active_user db (mkArgs (Some ia) (Some iu) t c));
    (split; [split; (reflexivity || discriminate)
            |intros Hf; try discriminate Hf; split; (reflexivity || discriminate)]).
Qed.

Lemma required_text_exactly_when_witness :
  String.length (string_of_list_ascii (repeat " "%char 255) ++ "late") = 259%nat /\
  fst (spNoteCreate scenario_clock
         (mkArgs (Some 1) (Some 5)
                 (Some (string_of_list_ascii (repeat " "%char 255) ++ "late")) (Some "x"))
         scenario_db) = inl (mkErr 51000 "titleRequired") /\
  fst (spNoteCreate scenario_clock (mkArgs (Some 1) (Some 5) (Some "t") (Some "  "))
         scenario_db) = inl (mkErr 51000 "contentRequired").
Proof.
  split; [vm_compute; reflexivity|]. split.
  - apply (proj1 (required_text_exactly_when scenario_clock
                    (mkArgs (Some 1) (Some 5)
                       (Some (string_of_list_ascii (repeat " "%char 255) ++ "late"))
                       (Some "x"))
                    scenario_db 1 5 eq_refl eq_refl)).
    vm_compute. reflexivity.
  - apply (proj2 (required_text_exactly_when scenario_clock
                    (mkArgs (Some 1) (Some 5) (Some "t") (Some "  "))
                    scenario_db 1 5 eq_refl eq_refl)); reflexivity.
Defined.

(* ================================================================== *)
(** ** Invariants of the note table *)
(* ================================================================== *)

Lemma sorted_snoc (l : list Z) (x : Z) :
  StronglySorted Z.lt l -> Forall (fun y => y < x) l -> StronglySorted Z.lt (l ++ [x]).
Proof.
  induction 1 as [|y l Hs IH Hall]; intros Hx; cbn [app].
  - constructor; constructor.
  - inversion Hx as [|? ? Hy Hrest]; subst. constructor; [apply IH; exact Hrest|].
    apply Forall_app. split; [exact Hall|]. constructor; [exact Hy|constructor].
Qed.

(** A failed call leaves the note rows as they are. *)
Lemma failed_call_notes (env : sqlEnv) (a : procArgs) (db : database) (e : sqlError) :
  fst (spNoteCreate env a db) = inl e -> note (snd (spNoteCreate env a db)) = note db.
Proof.
  intros He. destruct (spNoteCreate_notes env a db) as [H | (row & _ & Hr & _)];
    [exact H|]. rewrite Hr in He. discriminate.
Qed.

(** X1. In every store the procedure can produce, each note row has a title
    of at most 255 characters that is not made of spaces only, a content that
    is not made of spaces only, and [deleted] false. *)
Theorem stored_rows_well_formed (db : database) :
  reachable db ->
  forall r, In r (note db) ->
    (String.length (nt_title r) <= 255)%nat /\
    only_spaces (nt_title r) = false /\
    only_spaces (nt_content r) = false /\
    nt_deleted r = false.
Proof.
  induction 1 as [accounts users | db env a Hreach IH | db accounts users Hreach IH];
    intros r Hin.
  - destruct Hin.
  - destruct (spNoteCreate env a db) as [[e | res] db'] eqn:Hcall.
    + pose proof (failed_call_notes env a db e) as Hsame. rewrite Hcall in Hsame.
      cbn [fst snd] in *. rewrite (Hsame eq_refl) in Hin. apply IH. exact Hin.
    + cbn [snd] in Hin.
      destruct (spNoteCreate_success _ _ _ _ _ Hcall)
        as (Hv & _ & ia & iu & t & c & _ & _ & Ht & Hc & _ & Hdb).
      destruct (accepted_arguments db a Hv)
        as (_ & _ & t' & c' & _ & _ & Ht' & Hc' & Htb & Hcb & _ & _).
      rewrite Ht in Ht'. injection Ht' as <-. rewrite Hc in Hc'. injection Hc' as <-.
      rewrite Hdb in Hin. cbn [note] in Hin. apply in_app_or in Hin.
      destruct Hin as [Hin | [<- | []]]; [apply IH; exact Hin|].
      cbn [nt_title nt_content nt_deleted].
      rewrite trimmed_is_empty_iff in Htb, Hcb.
      split; [|split; [exact Htb|split; [exact Hcb|reflexivity]]].
      unfold param_title in Ht. destruct (arg_title a) as [raw|]; [|discriminate].
      injection Ht as <-. apply length_substring.
  - apply IH. exact Hin.
Qed.

Lemma stored_rows_well_formed_witness :
  reachable (snd (spNoteCreate scenario_clock
                    (mkArgs (Some 1) (Some 5) (Some (letters 300)) (Some "x")) scenario_db)) /\
  forall r,
    In r (note (snd (spNoteCreate scenario_clock
                       (mkArgs (Some 1) (Some 5) (Some (letters 300)) (Some "x"))
                       scenario_db))) ->
    (String.length (nt_title r) <= 255)%nat.
Proof.
  assert (Hreach : reachable
            (snd (spNoteCreate scenario_clock
                    (mkArgs (Some 1) (Some 5) (Some (letters 300)) (Some "x")) scenario_db))).
  { apply reachable_create. apply reachable_empty. }
  split; [exact Hreach|]. intros r Hin.
  exact (proj1 (stored_rows_well_formed _ Hreach r Hin)).
Defined.

(** X2. In every store the procedure can produce, the identifiers of the
    note rows increase strictly along the table, so no two rows share one;
    each lies between 1 and the identity counter, itself an INTEGER; and a
    call on such a store never violates pkNote. *)
Theorem note_identifiers_unique (db : database) :
  reachable db ->
  StronglySorted Z.lt (map nt_idNote (note db)) /\
  NoDup (map nt_idNote (note db)) /\
  Forall (fun r => 1 <= nt_idNote r <= noteIdentity db) (note db) /\
  noteIdentity db <= INT_MAX /\
  (forall env a, fst (spNoteCreate env a db) <> inl pkNote_violated).
Proof.
  intros Hreach.
  assert (Hsorted : StronglySorted Z.lt (map nt_idNote (note db))).
  { induction Hreach as [accounts users | db env a Hreach IH | db accounts users Hreach IH].
    - constructor.
    - destruct (spNoteCreate env a db) as [[e | res] db'] eqn:Hcall.
      + pose proof (failed_call_notes env a db e) as Hsame. rewrite Hcall in Hsame.
        cbn [fst snd] in *. rewrite (Hsame eq_refl). exact IH.
      + cbn [snd].
        destruct (spNoteCreate_success _ _ _ _ _ Hcall)
          as (_ & _ & ia & iu & t & c & _ & _ & _ & _ & _ & Hdb).
        rewrite Hdb. cbn [note]. rewrite map_app. cbn [map nt_idNote].
        apply sorted_snoc; [exact IH|].
        pose proof (reachable_ids_below _ Hreach) as Hbelow.
        apply Forall_map. eapply Forall_impl; [|exact Hbelow].
        intros r Hr. cbv beta in Hr |- *. lia.
    - exact IH. }
  destruct (reachable_identity_range db Hreach) as [Hrange Hrows].
  split; [exact Hsorted|]. split; [apply sorted_NoDup; exact Hsorted|].
  split; [exact Hrows|]. split; [lia|].
  intros env a He.
  assert (Hpk : pkNote_violation db (noteIdentity db + 1) = false).
  { unfold pkNote_violation. destruct (existsb _ (note db)) eqn:Hex; [|reflexivity].
    apply existsb_exists in Hex. destruct Hex as [r [Hin Heq]].
    rewrite Forall_forall in Hrows. specialize (Hrows r Hin).
    apply Z.eqb_eq in Heq. lia. }
  destruct (first_violation db a) as [m|] eqn:Hv.
  - apply (proj2 (fails_with_condition_iff env a db m)) in Hv. rewrite Hv in He.
    discriminate He.
  - destruct (accepted_call_cases env a db Hv)
      as [(_ & Hr & _) | [(_ & Hbad & _) | [(_ & _ & _ & Hr & _) | (_ & _ & Hr & _)]]].
    + rewrite Hr in He. discriminate He.
    + rewrite Hpk in Hbad. discriminate.
    + rewrite Hr in He. discriminate He.
    + rewrite Hr in He. discriminate He.
Qed.

Lemma note_identifiers_unique_witness :
  reachable (snd (run_calls [(scenario_clock, groceries); (mkSqlEnv 1001, groceries)]
                    scenario_db)) /\
  map nt_idNote
    (note (snd (run_calls [(scenario_clock, groceries); (mkSqlEnv 1001, groceries)]
                  scenario_db))) = [1; 2] /\
  NoDup (map nt_idNote
           (note (snd (run_calls [(scenario_clock, groceries); (mkSqlEnv 1001, groceries)]
                         scenario_db)))).
Proof.
  assert (Hreach : reachable
            (snd (run_calls [(scenario_clock, groceries); (mkSqlEnv 1001, groceries)]
                    scenario_db))).
  { change (reachable
              (snd (spNoteCreate (mkSqlEnv 1001) groceries
                      (snd (spNoteCreate scenario_clock groceries scenario_db))))).
    apply reachable_create. apply reachable_create. apply reachable_empty. }
  split; [exact Hreach|]. split; [reflexivity|].
  exact (proj1 (proj2 (note_identifiers_unique _ Hreach))).
Defined.

(* ================================================================== *)
(** ** What a call leaves alone *)
(* ================================================================== *)

(** A call never writes the account table nor the user table. *)
Lemma spNoteCreate_frame (env : sqlEnv) (a : procArgs) (db : database) :
  account (snd (spNoteCreate env a db)) = account db /\
  user (snd (spNoteCreate env a db)) = user db.
Proof.
  unfold spNoteCreate. cbn [snd].
  destruct (spNoteCreate_run_cases env a db)
    as [(m & _ & Hr) | [(_ & _ & e & n & s1 & Hr & _)
                       | (_ & _ & ia & iu & t & c & _ & _ & _ & _ & Hr)]];
    rewrite Hr; cbn [snd data account user]; split; reflexivity.
Qed.

(** X5. A run of calls never writes the account or user table and never
    removes or changes a note row: the note table it leaves is the one it
    found followed by the rows it added, one per successful call, whose
    identifiers are, in order, the identifiers the calls returned. *)
Theorem run_calls_appends_returned_rows
    (calls : list (sqlEnv * procArgs)) (db : database) :
  account (snd (run_calls calls db)) = account db /\
  user (snd (run_calls calls db)) = user db /\
  exists added,
    note (snd (run_calls calls db)) = (note db ++ added)%list /\
    map nt_idNote added = returned_ids (fst (run_calls calls db)).
Proof.
  revert db. induction calls as [|[env a] rest IH]; intros db.
  - cbn. split; [reflexivity|]. split; [reflexivity|]. exists [].
    split; [rewrite app_nil_r; reflexivity|reflexivity].
  - rewrite run_calls_cons. cbn [fst snd].
    destruct (IH (snd (spNoteCreate env a db))) as (Hacc & Husr & added & Hnote & Hids).
    destruct (spNoteCreate_frame env a db) as [Hacc1 Husr1].
    split; [rewrite Hacc; exact Hacc1|]. split; [rewrite Husr; exact Husr1|].
    destruct (spNoteCreate env a db) as [[e | res] db1] eqn:Hcall; cbn [fst snd] in *.
    + pose proof (failed_call_notes env a db e) as Hsame. rewrite Hcall in Hsame.
      cbn [fst snd] in Hsame. exists added. rewrite Hnote, (Hsame eq_refl).
      split; [reflexivity|exact Hids].
    + destruct (spNoteCreate_success _ _ _ _ _ Hcall)
        as (_ & _ & ia & iu & t & c & _ & _ & _ & _ & Hres & Hdb).
      subst res.
      exists (mkNote (noteIdentity db + 1) ia iu t c (GETUTCDATE env) (GETUTCDATE env) false
                :: added).
      rewrite Hnote. split.
      * rewrite Hdb at 1. cbn [note]. rewrite <- app_assoc. reflexivity.
      * cbn [map nt_idNote returned_ids]. rewrite Hids. reflexivity.
Qed.

(** X6. A note is only ever created for an active user of its own account,
    in an account that exists: when a call succeeds, the row it adds names a
    user row that is not deleted and carries the account of the note, and an
    account row. *)
Theorem created_note_owner
    (env : sqlEnv) (a : procArgs) (db db' : database) (res : option Z) :
  spNoteCreate env a db = (inr res, db') ->
  exists row usr,
    note db' = (note db ++ [row])%list /\
    res = Some (nt_idNote row) /\
    arg_idAccount a = Some (nt_idAccount row) /\
    arg_idUser a = Some (nt_idUser row) /\
    In usr (user db) /\
    usr_idUser usr = nt_idUser row /\
    usr_idAccount usr = nt_idAccount row /\
    usr_deleted usr = false /\
    In (nt_idAccount row) (account db).
Proof.
  intros Hcall.
  destruct (spNoteCreate_success _ _ _ _ _ Hcall)
    as (Hv & Hadm & ia & iu & t & c & Ha & Hu & Ht & Hc & Hres & Hdb).
  destruct (accepted_arguments db a Hv)
    as (ia' & iu' & _ & _ & Ha' & Hu' & _ & _ & _ & _ & _ & Hex).
  rewrite Ha in Ha'. injection Ha' as <-. rewrite Hu in Hu'. injection Hu' as <-.
  apply existsb_exists in Hex. destruct Hex as [usr [Hin Hm]].
  unfold user_matches in Hm.
  apply andb_true_iff in Hm. destruct Hm as [Hm Hd].
  apply andb_true_iff in Hm. destruct Hm as [Hmu Hma].
  apply Z.eqb_eq in Hmu. apply Z.eqb_eq in Hma. apply negb_true_iff in Hd.
  unfold insert_admitted in Hadm. rewrite Ha in Hadm.
  apply andb_true_iff in Hadm. destruct Hadm as [_ Hfk].
  apply negb_true_iff in Hfk. unfold fkNote_Account_violation in Hfk.
  apply negb_false_iff in Hfk. apply existsb_exists in Hfk.
  destruct Hfk as [k [Hk Heq]]. apply Z.eqb_eq in Heq. subst k.
  eexists. exists usr. rewrite Hdb. cbn [note].
  split; [reflexivity|]. cbn [nt_idNote nt_idAccount nt_idUser].
  repeat split; assumption.
Qed.

Lemma created_note_owner_witness :
  exists row usr,
    note (snd (spNoteCreate scenario_clock groceries scenario_db)) = [row] /\
    In usr (user scenario_db) /\
    usr_idUser usr = nt_idUser row /\ usr_idAccount usr = nt_idAccount row /\
    usr_deleted usr = false.
Proof.
  destruct (created_note_owner scenario_clock groceries scenario_db
              (snd (spNoteCreate scenario_clock groceries scenario_db)) (Some 1) eq_refl)
    as (row & usr & Hnote & _ & _ & _ & Hin & Hu & Ha & Hd & _).
  exists row, usr. repeat split; assumption.
Defined.

(* ================================================================== *)
(** ** Objects: reading what was assigned *)
(* ================================================================== *)

Lemma get_assign_same (fields : list (string * value)) (k : string) (v : value) :
  get (assign fields k v) k = v.
Proof.
  induction fields as [|[k0 v0] rest IH]; cbn [assign get].
  - rewrite String.eqb_refl. reflexivity.
  - destruct (String.eqb k0 k) eqn:Hk; cbn [get].
    + rewrite String.eqb_refl. reflexivity.
    + rewrite Hk. exact IH.
Qed.

Lemma get_assign_other (fields : list (string * value)) (k k' : string) (v : value) :
  k' <> k -> get (assign fields k v) k' = get fields k'.
Proof.
  intros Hne. induction fields as [|[k0 v0] rest IH]; cbn [assign get].
  - destruct (String.eqb_spec k k') as [He | _]; [congruence|reflexivity].
  - destruct (String.eqb_spec k0 k) as [-> | Hk]; cbn [get].
    + destruct (String.eqb_spec k k') as [He | _]; [congruence|reflexivity].
    + destruct (String.eqb k0 k'); [reflexivity|exact IH].
Qed.

(** X8. Whatever metadata the caller gives, the success envelope has
    [success] true, the data untouched, and a metadata object whose
    [timestamp] is the time of the call, also when the caller's metadata had
    one of its own; every other property of the caller's metadata is carried
    over, and without metadata there is no other property. *)
Theorem successResponse_envelope
    (env : jsEnv) (data : value) (metadata : option (list (string * value))) :
  prop (successResponse env data metadata) "success" = VBool true /\
  prop (successResponse env data metadata) "data" = data /\
  prop (prop (successResponse env data metadata) "metadata") "timestamp"
    = VString (toISOString env) /\
  (forall k, k <> "timestamp" ->
     prop (prop (successResponse env data metadata) "metadata") k =
     match metadata with
     | Some m => get m k
     | None => VUndefined
     end).
Proof.
  unfold successResponse. cbn [prop get String.eqb Ascii.eqb Bool.eqb].
  split; [reflexivity|]. split; [reflexivity|]. split.
  - apply get_assign_same.
  - intros k Hk. rewrite (get_assign_other _ _ _ _ Hk). destruct metadata; reflexivity.
Qed.

(* ================================================================== *)
(** ** The error middleware and the 404 middleware *)
(* ================================================================== *)



(** X9. The 404 middleware always answers 404 with [success] false and the
    code NOT_FOUND, but not in the shape of the other error answers: its
    timestamp sits inside [error] and the body has none of its own, so the
    body is never one that [errorResponse] or the error middleware builds,
    both of which put the timestamp on the body. *)
Theorem notFoundMiddleware_shape (env : jsEnv) (req : httpRequest) :
  exists body,
    notFoundMiddleware env req = Responded 404 body /\
    prop body "success" = VBool false /\
    prop (prop body "error") "code" = VString "NOT_FOUND" /\
    prop body "timestamp" = VUndefined /\
    prop (prop body "error") "timestamp" = VString (toISOString env) /\
    (forall env' message code details,
       prop (errorResponse env' message code details) "timestamp"
         = VString (toISOString env') /\
       body <> errorResponse env' message code details) /\
    (forall env' NODE_ENV error req',
       prop (bodySent (errorMiddleware env' NODE_ENV error req')) "timestamp"
         = VString (toISOString env') /\
       body <> bodySent (errorMiddleware env' NODE_ENV error req')).
Proof.
  eexists. split; [reflexivity|].
  cbn [prop get String.eqb Ascii.eqb Bool.eqb].
  repeat (split; [reflexivity|]). split.
  - intros env' message code details. split; [reflexivity|].
    unfold errorResponse. intros H. discriminate H.
  - intros env' NODE_ENV error req'. split; [reflexivity|].
    unfold errorMiddleware. cbn [bodySent]. intros H. discriminate H.
Qed.

(* ================================================================== *)
(** ** The connection pool *)
(* ================================================================== *)

Lemma getPool_times_connected (ConnectionPool : Type)
    (connect : nat -> string + ConnectionPool) (n : nat)
    (st : poolState ConnectionPool) (p : ConnectionPool) :
  pool _ st = Some p ->
  getPool_times _ connect n st = (repeat (inr p) n, st).
Proof.
  intros Hp. induction n as [|n IH]; [reflexivity|].
  cbn [getPool_times repeat]. unfold getPool at 1. rewrite Hp, IH. reflexivity.
Qed.

Lemma getPool_times_S (ConnectionPool : Type)
    (connect : nat -> string + ConnectionPool) (n : nat)
    (st : poolState ConnectionPool) :
  getPool_times _ connect (S n) st =
  (fst (getPool _ connect st)
     :: fst (getPool_times _ connect n (snd (getPool _ connect st))),
   snd (getPool_times _ connect n (snd (getPool _ connect st)))).
Proof.
  cbn [getPool_times]. destruct (getPool _ connect st) as [r st1]. cbn [fst snd].
  destruct (getPool_times _ connect n st1). reflexivity.
Qed.

(** X12. Calls of [getPool] taken one after the other share one pool: all
    the calls that succeed return the same pool, the one the module then
    keeps; once a pool is there no call connects again; and [sql.connect] is
    called once per failed call, plus once for the first success. *)
Theorem getPool_singleton (ConnectionPool : Type)
    (connect : nat -> string + ConnectionPool) (n : nat)
    (st : poolState ConnectionPool) :
  let rs := fst (getPool_times _ connect n st) in
  let st' := snd (getPool_times _ connect n st) in
  (forall p q, In (inr p) rs -> In (inr q) rs -> p = q) /\
  (forall p, In (inr p) rs -> pool _ st' = Some p) /\
  (forall p, pool _ st = Some p -> rs = repeat (inr p) n /\ st' = st) /\
  connects _ st' =
    (connects _ st + failures rs +
     match pool _ st, pool _ st' with
     | None, Some _ => 1
     | _, _ => 0
     end)%nat.
Proof.
  cbv zeta.
  assert (Hconnected : forall k s p, pool _ s = Some p ->
            fst (getPool_times _ connect k s) = repeat (inr p) k /\
            snd (getPool_times _ connect k s) = s).
  { intros k s p Hp. rewrite (getPool_times_connected _ connect k s p Hp).
    split; reflexivity. }
  assert (Hrepeat : forall k (p : ConnectionPool),
            failures (repeat (@inr string ConnectionPool p) k) = 0%nat).
  { intros k p. unfold failures. induction k as [|k IH]; [reflexivity|exact IH]. }
  revert st. induction n as [|n IH]; intros st.
  - cbn [getPool_times fst snd]. split; [intros p q []|]. split; [intros p []|].
    split; [intros p Hp; split; reflexivity|].
    unfold failures. cbn. destruct (pool _ st); lia.
  - destruct (pool _ st) as [p0|] eqn:Hp0.
    + destruct (Hconnected (S n) st p0 Hp0) as [Hrs Hst]. rewrite Hrs, Hst, Hp0.
      split; [|split; [|split]].
      * intros p q Hp Hq. apply repeat_spec in Hp. apply repeat_spec in Hq. congruence.
      * intros p Hp. apply repeat_spec in Hp. congruence.
      * intros p Hp. injection Hp as <-. split; reflexivity.
      * rewrite Hrepeat. lia.
    + rewrite (getPool_times_S _ connect n st).
      destruct (connect (connects _ st)) as [e | p1] eqn:Hc.
      * assert (Hget : getPool _ connect st
                       = (inl e, mkPoolState _ None (S (connects _ st))))
          by (unfold getPool; rewrite Hp0, Hc; reflexivity).
        rewrite Hget. cbn [fst snd].
        specialize (IH (mkPoolState _ None (S (connects _ st)))).
        destruct (getPool_times _ connect n (mkPoolState _ None (S (connects _ st))))
          as [rs st'] eqn:Hrun.
        cbn [fst snd pool connects] in *.
        destruct IH as (Hsame & Hkept & _ & Hcount).
        split; [|split; [|split]].
        -- intros p q [Hp | Hp] [Hq | Hq]; try discriminate. apply Hsame; assumption.
        -- intros p [Hp | Hp]; [discriminate|]. apply Hkept. exact Hp.
        -- intros p Hp. discriminate.
        -- rewrite Hcount. unfold failures. cbn [filter List.length]. lia.
      * assert (Hget : getPool _ connect st
                       = (inr p1, mkPoolState _ (Some p1) (S (connects _ st))))
          by (unfold getPool; rewrite Hp0, Hc; reflexivity).
        rewrite Hget. cbn [fst snd].
        destruct (Hconnected n (mkPoolState _ (Some p1) (S (connects _ st))) p1 eq_refl)
          as [Hrs Hst].
        destruct (getPool_times _ connect n (mkPoolState _ (Some p1) (S (connects _ st))))
          as [rs st'] eqn:Hrun.
        cbn [fst snd] in *. subst rs st'. cbn [pool connects].
        split; [|split; [|split]].
        -- intros p q [Hp | Hp] [Hq | Hq];
             try (apply repeat_spec in Hp); try (apply repeat_spec in Hq); congruence.
        -- intros p [Hp | Hp]; [congruence|]. apply repeat_spec in Hp. congruence.
        -- intros p Hp. discriminate.
        -- unfold failures at 1. cbn [filter]. fold (failures (repeat (@inr string _ p1) n)).
           rewrite Hrepeat. lia.
Qed.

(* ================================================================== *)
(** ** What the schema lets through *)
(* ================================================================== *)

Lemma positive_integer_shape (v : value) :
  is_positive_integer v = true ->
  exists q, v = VNumber (Finite q) /\ (q == inject_Z (number_of v))%Q /\ 0 < number_of v.
Proof.
  intros H. pose proof (positive_integer_number v H) as Hpos.
  unfold is_positive_integer in H.
  destruct v as [| |b|n|s|l|o]; try discriminate.
  destruct n as [|neg|q]; try discriminate.
  exists q. split; [reflexivity|]. split; [|exact Hpos].
  cbn [isInteger isPositive] in H. apply andb_true_iff in H. destruct H as [Hint _].
  apply Z.eqb_eq in Hint. unfold number_of, toZ, Qeq, inject_Z. cbn [Qnum Qden].
  rewrite Z.mul_1_r.
  rewrite (Z.div_mod (Qnum q) (Z.pos (Qden q))) at 1 by lia.
  rewrite Hint. lia.
Qed.

Lemma string_of_length_shape (lo : nat) (hi : option nat) (v : value) :
  is_string_of_length lo hi v = true ->
  exists s,
    v = VString s /\ (lo <= String.length s)%nat /\
    match hi with Some h => (String.length s <= h)%nat | None => True end.
Proof.
  unfold is_string_of_length. destruct v as [| |b|n|s|l|o]; try discriminate.
  intros H. apply andb_true_iff in H. destruct H as [Hlo Hhi].
  exists s. split; [reflexivity|]. split; [apply Nat.leb_le; exact Hlo|].
  destruct hi as [h|]; [apply Nat.leb_le; exact Hhi|exact I].
Qed.

(** X13. What the schema lets through to the service satisfies the
    structural contract and is what the body said, without coercion: the two
    identifiers are the positive integers the body gave as numbers, the title
    is the string of the body, of 1 to 255 characters, the content the string
    of the body, of at least 1 character. Nothing but these four properties
    of the body matters: two bodies that agree on them are handled alike. *)
Theorem bodySchema_parse_sound :
  (forall body validated,
     bodySchema_parse body = inr validated ->
     exists fields qa qu,
       body = VObject fields /\
       get fields "idAccount" = VNumber (Finite qa) /\
       (qa == inject_Z (idAccount validated))%Q /\ 0 < idAccount validated /\
       get fields "idUser" = VNumber (Finite qu) /\
       (qu == inject_Z (idUser validated))%Q /\ 0 < idUser validated /\
       get fields "title" = VString (title validated) /\
       (1 <= String.length (title validated) <= 255)%nat /\
       get fields "content" = VString (content validated) /\
       (1 <= String.length (content validated))%nat) /\
  (forall fields fields',
     (forall k, In k ["idAccount"; "idUser"; "title"; "content"] ->
                get fields k = get fields' k) ->
     bodySchema_parse (VObject fields) = bodySchema_parse (VObject fields') /\
     forall service env db,
       postHandlerWith service env (VObject fields) db
       = postHandlerWith service env (VObject fields') db).
Proof.
  split.
  - intros body validated Hparse.
    destruct (bodySchema_parse_cases body)
      as [(_ & _ & Hrej) | (Hvalid & fields & -> & Hok)];
      [rewrite Hrej in Hparse; discriminate|].
    rewrite Hok in Hparse. injection Hparse as <-.
    cbn [structurally_valid forallb] in Hvalid. unfold field_valid in Hvalid.
    cbn [String.eqb Ascii.eqb Bool.eqb] in Hvalid.
    apply andb_true_iff in Hvalid. destruct Hvalid as [Ha Hvalid].
    apply andb_true_iff in Hvalid. destruct Hvalid as [Hu Hvalid].
    apply andb_true_iff in Hvalid. destruct Hvalid as [Ht Hvalid].
    apply andb_true_iff in Hvalid. destruct Hvalid as [Hc _].
    destruct (positive_integer_shape _ Ha) as (qa & Hqa & Heqa & Hposa).
    destruct (positive_integer_shape _ Hu) as (qu & Hqu & Hequ & Hposu).
    destruct (string_of_length_shape _ _ _ Ht) as (t & Ht' & Hlo & Hhi).
    destruct (string_of_length_shape _ _ _ Hc) as (c & Hc' & Hloc & _).
    exists fields, qa, qu. cbn [idAccount idUser title content].
    rewrite Ht', Hc'. cbn [string_of].
    repeat split; try assumption; try reflexivity.
  - intros fields fields' Hagree.
    assert (Hparse : bodySchema_parse (VObject fields) = bodySchema_parse (VObject fields')).
    { unfold bodySchema_parse, bodySchema_issues.
      rewrite (Hagree "idAccount") by (cbn; tauto).
      rewrite (Hagree "idUser") by (cbn; tauto).
      rewrite (Hagree "title") by (cbn; tauto).
      rewrite (Hagree "content") by (cbn; tauto).
      reflexivity. }
    split; [exact Hparse|]. intros service env db.
    unfold postHandlerWith. rewrite Hparse. reflexivity.
Qed.

Lemma bodySchema_parse_sound_witness :
  bodySchema_parse
    (VObject [ ("admin", VBool true); ("idAccount", VNumber (Finite (4 # 2)));
               ("idUser", VNumber (ofZ 5)); ("title", VString "Groceries");
               ("content", VString "Milk, eggs") ])
  = inr (mkRequest 2 5 "Groceries" "Milk, eggs") /\
  (exists fields qa,
     get fields "idAccount" = VNumber (Finite qa) /\ (qa == inject_Z 2)%Q) /\
  bodySchema_parse
    (VObject [ ("idAccount", VNumber (Finite (4 # 2)));
               ("idUser", VNumber (ofZ 5)); ("title", VString "Groceries");
               ("content", VString "Milk, eggs") ])
  = inr (mkRequest 2 5 "Groceries" "Milk, eggs").
Proof.
  destruct bodySchema_parse_sound as [Hsound Hkeys].
  split; [reflexivity|]. split.
  - destruct (Hsound _ (mkRequest 2 5 "Groceries" "Milk, eggs")
                (eq_refl :
                   bodySchema_parse
                     (VObject [ ("admin", VBool true);
                                ("idAccount", VNumber (Finite (4 # 2)));
                                ("idUser", VNumber (ofZ 5)); ("title", VString "Groceries");
                                ("content", VString "Milk, eggs") ]) = _))
      as (fields & qa & qu & _ & Hqa & Heq & _).
    exists fields, qa. split; assumption.
  - rewrite <- (proj1 (Hkeys
                  [ ("admin", VBool true); ("idAccount", VNumber (Finite (4 # 2)));
                    ("idUser", VNumber (ofZ 5)); ("title", VString "Groceries");
                    ("content", VString "Milk, eggs") ]
                  [ ("idAccount", VNumber (Finite (4 # 2)));
                    ("idUser", VNumber (ofZ 5)); ("title", VString "Groceries");
                    ("content", VString "Milk, eggs") ]
                  ltac:(intros k [<- | [<- | [<- | [<- | []]]]]; reflexivity))).
    reflexivity.
Defined.

(* ================================================================== *)
(** ** The controller, request by request *)
(* ================================================================== *)

(** X14. The handler answers 201 or 400, or hands the error on, and never
    anything else; it never writes the account or user table. It answers 201
    exactly when one note row was added, and that row then carries the four
    values of the request unchanged and the identifier of the envelope. With
    400 the store is untouched; when the error is handed on no note row is
    added and the error does not carry the number 51000. *)
Theorem postHandler_outcomes (env : jsEnv) (body : value) (db : database) :
  account (snd (postHandler env body db)) = account db /\
  user (snd (postHandler env body db)) = user db /\
  match fst (postHandler env body db) with
  | Responded status answer =>
      (status = 201 /\ prop answer "success" = VBool true /\
       exists validated id,
         bodySchema_parse body = inr validated /\
         answer = created_envelope env id /\
         note (snd (postHandler env body db)) =
           (note db ++
            [mkNote id (idAccount validated) (idUser validated) (title validated)
                    (content validated) (GETUTCDATE (sqlClock env))
                    (GETUTCDATE (sqlClock env)) false])%list)
      \/
      (status = 400 /\ prop answer "success" = VBool false /\
       snd (postHandler env body db) = db)
  | Passed error =>
      note (snd (postHandler env body db)) = note db /\
      error_number error <> Some 51000
  end.
Proof.
  destruct (bodySchema_parse_cases body)
    as [(_ & _ & Hrej) | (_ & fields & Hbody & Hparse)].
  - unfold postHandler. rewrite (postHandlerWith_rejected _ _ _ _ _ Hrej). cbn [fst snd].
    split; [reflexivity|]. split; [reflexivity|]. right.
    split; [reflexivity|]. split; reflexivity.
  - destruct (proj1 bodySchema_parse_sound _ _ Hparse)
      as (_ & _ & _ & _ & _ & _ & _ & _ & _ & _ & _ & Hlen & _).
    set (validated := mkRequest (number_of (get fields "idAccount"))
                                (number_of (get fields "idUser"))
                                (string_of (get fields "title"))
                                (string_of (get fields "content"))) in *.
    unfold postHandler. rewrite (postHandlerWith_parsed _ _ _ _ _ Hparse).
    destruct (noteCreate_cases env validated db) as [(e & He & Hnum & _) | (_ & _ & Hcall)].
    + rewrite He. cbn [error_number fst snd]. rewrite Hnum. cbn [Z.eqb Pos.eqb fst snd].
      split; [reflexivity|]. split; [reflexivity|]. split; [reflexivity|].
      cbn [error_number]. rewrite Hnum. discriminate.
    + rewrite Hcall.
      set (a := mkArgs (Some (idAccount validated)) (Some (idUser validated))
                       (Some (title validated)) (Some (content validated))) in *.
      destruct (spNoteCreate_frame (sqlClock env) a db) as [Hacc Husr].
      destruct (spNoteCreate (sqlClock env) a db) as [[e | idNote] db'] eqn:Hsp;
        cbn [fst snd] in Hacc, Husr.
      * destruct (spNoteCreate_errors _ _ _ _ _ Hsp) as [(_ & Hdb & _ & Hnum) | Hnum].
        -- cbn [error_number error_message]. rewrite Hnum. cbn [Z.eqb Pos.eqb fst snd].
           split; [exact Hacc|]. split; [exact Husr|]. right.
           split; [reflexivity|]. split; [reflexivity|exact Hdb].
        -- cbn [error_number]. apply Z.eqb_neq in Hnum. rewrite Hnum. cbn [fst snd].
           split; [exact Hacc|]. split; [exact Husr|]. split.
           ++ pose proof (failed_call_notes (sqlClock env) a db e) as Hsame.
              rewrite Hsp in Hsame. apply Hsame. reflexivity.
           ++ apply Z.eqb_neq in Hnum. intros H. injection H as H. contradiction.
      * cbn [fst snd]. split; [exact Hacc|]. split; [exact Husr|]. left.
        split; [reflexivity|]. split; [reflexivity|].
        destruct (spNoteCreate_success _ _ _ _ _ Hsp)
          as (_ & _ & ia & iu & t & c & Ha & Hu & Ht & Hc & Hid & Hdb).
        exists validated, (noteIdentity db + 1). split; [exact Hparse|].
        subst idNote. split; [reflexivity|].
        unfold a, param_title in *. cbn [arg_idAccount arg_idUser arg_title arg_content
                                          option_map] in *.
        rewrite (nvarchar_short 255 (title validated)) in Ht by lia.
        injection Ha as <-. injection Hu as <-. injection Ht as <-. injection Hc as <-.
        rewrite Hdb. reflexivity.
Qed.

(** X15. Of the six conditions of the procedure only three can reach a
    client of the controller: a BUSINESS_RULE_ERROR answer carries
    [titleRequired], [contentRequired] or [userDoesNotBelongToAccount], never
    [idAccountRequired], [idUserRequired] nor [titleExceedsMaxLength], which
    the schema rules out before the procedure is called. *)
Theorem postHandler_business_messages
    (env : jsEnv) (body : value) (db : database) (m : string) :
  fst (postHandler env body db) =
    Responded 400 (errorResponse env m (Some "BUSINESS_RULE_ERROR") VUndefined) ->
  m = "titleRequired" \/ m = "contentRequired" \/ m = "userDoesNotBelongToAccount".
Proof.
  intros Hresp.
  destruct (bodySchema_parse_cases body)
    as [(_ & _ & Hrej) | (_ & fields & Hbody & Hparse)].
  - unfold postHandler in Hresp. rewrite (postHandlerWith_rejected _ _ _ _ _ Hrej) in Hresp.
    cbn [fst] in Hresp. unfold errorResponse in Hresp. discriminate Hresp.
  - set (validated := mkRequest (number_of (get fields "idAccount"))
                                (number_of (get fields "idUser"))
                                (string_of (get fields "title"))
                                (string_of (get fields "content"))) in *.
    unfold postHandler in Hresp. rewrite (postHandlerWith_parsed _ _ _ _ _ Hparse) in Hresp.
    destruct (noteCreate_cases env validated db) as [(e & He & Hnum & _) | (_ & _ & Hcall)].
    + rewrite He in Hresp. cbn [error_number] in Hresp. rewrite Hnum in Hresp.
      discriminate Hresp.
    + rewrite Hcall in Hresp.
      set (a := mkArgs (Some (idAccount validated)) (Some (idUser validated))
                       (Some (title validated)) (Some (content validated))) in *.
      destruct (spNoteCreate (sqlClock env) a db) as [[e | idNote] db'] eqn:Hsp;
        [|discriminate Hresp].
      destruct (spNoteCreate_errors _ _ _ _ _ Hsp) as [(_ & _ & Hv & Hnum) | Hnum].
      * cbn [error_number error_message] in Hresp. rewrite Hnum in Hresp.
        cbn [Z.eqb Pos.eqb fst] in Hresp. unfold errorResponse in Hresp.
        injection Hresp as Hm. rewrite Hm in Hv.
        pose proof (first_violation_present db (idAccount validated) (idUser validated)
                      (Some (title validated)) (Some (content validated))) as Hfirst.
        cbv zeta in Hfirst. fold a in Hfirst. rewrite Hfirst in Hv.
        destruct (title_blank a); [injection Hv as <-; tauto|].
        destruct (content_blank a); [injection Hv as <-; tauto|].
        destruct (no_active_user db a); [injection Hv as <-; tauto|discriminate Hv].
      * cbn [error_number] in Hresp. apply Z.eqb_neq in Hnum. rewrite Hnum in Hresp.
        discriminate Hresp.
Qed.

Lemma postHandler_business_messages_witness :
  fst (postHandler scenario_env (scenario_body " ") scenario_db) =
    Responded 400
      (errorResponse scenario_env "titleRequired" (Some "BUSINESS_RULE_ERROR") VUndefined) /\
  ("titleRequired" = "titleRequired" \/ "titleRequired" = "contentRequired" \/
   "titleRequired" = "userDoesNotBelongToAccount").
Proof.
  split; [reflexivity|].
  apply (postHandler_business_messages scenario_env (scenario_body " ") scenario_db).
  reflexivity.
Defined.

(** X16. An identifier the schema accepts but that is no INTEGER (above
    2147483647) makes the handler answer neither VALIDATION_ERROR nor
    BUSINESS_RULE_ERROR: the request passes the schema, the call of the
    procedure fails on the conversion of the argument, and the handler hands
    that error on, the store untouched. *)
Theorem oversized_identifier_passed_on
    (env : jsEnv) (fields : list (string * value)) (db : database) :
  structurally_valid (VObject fields) = true ->
  INT_MAX < number_of (get fields "idAccount") \/
  INT_MAX < number_of (get fields "idUser") ->
  exists error,
    postHandler env (VObject fields) db = (Passed error, db) /\
    error_number error <> Some 51000.
Proof.
  intros Hvalid Hbig.
  destruct (bodySchema_parse_cases (VObject fields))
    as [(Hinvalid & _) | (_ & fields' & Heq & Hparse)];
    [rewrite Hvalid in Hinvalid; discriminate|].
  injection Heq as <-.
  set (validated := mkRequest (number_of (get fields "idAccount"))
                              (number_of (get fields "idUser"))
                              (string_of (get fields "title"))
                              (string_of (get fields "content"))) in *.
  unfold postHandler. rewrite (postHandlerWith_parsed _ _ _ _ _ Hparse).
  destruct (noteCreate_cases env validated db) as [(e & He & Hnum & _) | (Ha & Hu & _)].
  - exists (RequestError e). rewrite He. cbn [error_number]. rewrite Hnum.
    split; [reflexivity|discriminate].
  - unfold validated in Ha, Hu. cbn [idAccount idUser] in Ha, Hu. lia.
Qed.

Lemma oversized_identifier_passed_on_witness :
  structurally_valid
    (VObject [ ("idAccount", VNumber (ofZ 3000000000)); ("idUser", VNumber (ofZ 5));
               ("title", VString "Groceries"); ("content", VString "Milk, eggs") ]) = true /\
  exists error,
    postHandler scenario_env
      (VObject [ ("idAccount", VNumber (ofZ 3000000000)); ("idUser", VNumber (ofZ 5));
                 ("title", VString "Groceries"); ("content", VString "Milk, eggs") ])
      scenario_db = (Passed error, scenario_db).
Proof.
  split; [reflexivity|].
  destruct (oversized_identifier_passed_on scenario_env
              [ ("idAccount", VNumber (ofZ 3000000000)); ("idUser", VNumber (ofZ 5));
                ("title", VString "Groceries"); ("content", VString "Milk, eggs") ]
              scenario_db eq_refl ltac:(left; vm_compute; reflexivity))
    as (error & Hresp & _).
  exists error. exact Hresp.
Defined.

(** X7. The identity counter after a call: one more than before when the
    input passes the validations and the next value is still an INTEGER,
    whether the row is then inserted or a constraint rejects it; unchanged
    when a validation rejects the input or the column is exhausted. So a
    call that fails on pkNote or fkNote_Account spends an identifier without
    adding a row. *)
Theorem identity_counter_after_call (env : sqlEnv) (a : procArgs) (db : database) :
  noteIdentity (snd (spNoteCreate env a db)) =
  match first_violation db a with
  | Some _ => noteIdentity db
  | None =>
      if noteIdentity db + 1 <=? INT_MAX then noteIdentity db + 1 else noteIdentity db
  end.
Proof.
  destruct (first_violation db a) as [m|] eqn:Hv.
  - unfold spNoteCreate. rewrite spNoteCreate_run_phases, Hv. reflexivity.
  - destruct (accepted_call_cases env a db Hv)
      as [(Hmax & _ & Hid & _) | [(Hmax & _ & _ & Hid & _)
         | [(Hmax & _ & _ & _ & Hid & _) | (Hmax & _ & _ & Hid)]]];
      rewrite Hid.
    + replace (noteIdentity db + 1 <=? INT_MAX) with false
        by (symmetry; apply Z.leb_gt; exact Hmax). reflexivity.
    + replace (noteIdentity db + 1 <=? INT_MAX) with true
        by (symmetry; apply Z.leb_le; exact Hmax). reflexivity.
    + replace (noteIdentity db + 1 <=? INT_MAX) with true
        by (symmetry; apply Z.leb_le; exact Hmax). reflexivity.
    + replace (noteIdentity db + 1 <=? INT_MAX) with true
        by (symmetry; apply Z.leb_le; exact Hmax). reflexivity.
Qed.

(* ================================================================== *)
(** ** The create operation: failure *)
(* ================================================================== *)

Lemma only_spaces_nvarchar (n : nat) (s : string) :
  only_spaces s = true -> only_spaces (nvarchar n s) = true.
Proof.
  unfold only_spaces, nvarchar. revert s. induction n as [|n IH]; intros s H.
  - destruct s; reflexivity.
  - destruct s as [|c s]; [reflexivity|].
    cbn [substring list_ascii_of_string forallb] in *.
    apply andb_true_iff in H. destruct H as [Hc Hs].
    rewrite Hc. cbn [andb]. apply IH. exact Hs.
Qed.

Lemma raw_title_blank_title_blank (a : procArgs) :
  raw_title_blank a = true -> title_blank a = true.
Proof.
  unfold raw_title_blank, title_blank. destruct (arg_title a) as [t|]; [|reflexivity].
  apply only_spaces_nvarchar.
Qed.

Lemma title_blank_short (a : procArgs) :
  (forall t, arg_title a = Some t -> (String.length t <= 255)%nat) ->
  title_blank a = raw_title_blank a.
Proof.
  unfold raw_title_blank, title_blank. destruct (arg_title a) as [t|]; [|reflexivity].
  intros H. rewrite (nvarchar_short 255 t (H t eq_refl)). reflexivity.
Qed.

(** An input of one of the five classes breaks a validation. *)
Lemma invalid_input_violation (db : database) (a : procArgs) :
  invalid_input db a = true ->
  exists m,
    In m [ "idAccountRequired"; "idUserRequired"; "titleRequired"; "contentRequired";
           "userDoesNotBelongToAccount" ] /\
    first_violation db a = Some m /\
    ((forall t, arg_title a = Some t -> (String.length t <= 255)%nat) ->
     m = expected_condition a).
Proof.
  destruct a as [[ia|] [iu|] t c].
  - unfold invalid_input, expected_condition.
    cbn [arg_idAccount arg_idUser is_null orb]. intros H.
    rewrite first_violation_present.
    pose proof (raw_title_blank_title_blank (mkArgs (Some ia) (Some iu) t c)) as Hraw.
    pose proof (title_blank_short (mkArgs (Some ia) (Some iu) t c)) as Hshort.
    destruct (title_blank (mkArgs (Some ia) (Some iu) t c)) eqn:Ht.
    + exists "titleRequired". split; [cbn; tauto|]. split; [reflexivity|].
      intros Hlen. rewrite <- (Hshort Hlen). reflexivity.
    + destruct (raw_title_blank (mkArgs (Some ia) (Some iu) t c)) eqn:Hr;
        [discriminate (Hraw eq_refl)|].
      cbn [orb] in H.
      destruct (content_blank (mkArgs (Some ia) (Some iu) t c)) eqn:Hc.
      * exists "contentRequired". split; [cbn; tauto|]. split; reflexivity.
      * cbn [orb] in H. rewrite H.
        exists "userDoesNotBelongToAccount". split; [cbn; tauto|]. split; reflexivity.
  - intros _. exists "idUserRequired". split; [cbn; tauto|]. split; reflexivity.
  - intros _. exists "idAccountRequired". split; [cbn; tauto|]. split; reflexivity.
  - intros _. exists "idAccountRequired". split; [cbn; tauto|]. split; reflexivity.
Qed.

(** C2 (as amended). A call with a missing account identifier, a missing
    user identifier, a title or a content that is NULL or made of spaces
    only, or no active user of the account, fails with the condition of its
    class (number 51000; the condition of the first class it falls into when
    the title has at most 255 characters) and leaves the store exactly as it
    was, identity counter included: the validations write nothing. Whenever
    a call fails, no transaction is left open and the rows of the account,
    user and note tables are those before the call: a failure of the INSERT
    is rolled back and the error raised is the one the INSERT raised. Only
    the identity counter of the note table is not restored: after a failed
    INSERT it is the one the INSERT left, the old value or one more. *)
Theorem spNoteCreate_failure_effect (env : sqlEnv) (a : procArgs) (db : database) :
  (invalid_input db a = true ->
   exists m,
     In m [ "idAccountRequired"; "idUserRequired"; "titleRequired"; "contentRequired";
            "userDoesNotBelongToAccount" ] /\
     spNoteCreate_run env a db = (inl (mkErr 51000 m), mkSession db None None) /\
     spNoteCreate env a db = (inl (mkErr 51000 m), db) /\
     ((forall t, arg_title a = Some t -> (String.length t <= 255)%nat) ->
      m = expected_condition a)) /\
  (forall e s,
     spNoteCreate_run env a db = (inl e, s) ->
     tran s = None /\
     account (data s) = account db /\
     user (data s) = user db /\
     note (data s) = note db /\
     (noteIdentity (data s) = noteIdentity db \/
      noteIdentity (data s) = noteIdentity db + 1) /\
     ((exists m, e = mkErr 51000 m /\ first_violation db a = Some m /\ data s = db)
      \/
      (first_violation db a = None /\ number e <> 51000 /\
       exists s1,
         INSERT_note (arg_idAccount a) (arg_idUser a) (param_title a) (arg_content a)
           (GETUTCDATE env) (GETUTCDATE env) false (mkSession db (Some db) None)
         = (inl e, s1) /\
         noteIdentity (data s) = noteIdentity (data s1)))).
Proof.
  split.
  - intros Hinvalid.
    destruct (invalid_input_violation db a Hinvalid) as (m & Hin & Hv & Hm).
    exists m. split; [exact Hin|].
    assert (Hrun : spNoteCreate_run env a db = (inl (mkErr 51000 m), mkSession db None None)).
    { rewrite spNoteCreate_run_phases, Hv. reflexivity. }
    split; [exact Hrun|]. split; [|exact Hm].
    unfold spNoteCreate. rewrite Hrun. reflexivity.
  - intros e s Hrun. rewrite spNoteCreate_run_phases in Hrun.
    destruct (first_violation db a) as [m|] eqn:Hv.
    + injection Hrun as <- <-. cbn [tran data].
      repeat (split; [reflexivity|]). split; [left; reflexivity|].
      left. exists m. repeat split.
    + destruct (accepted_arguments db a Hv)
        as (ia & iu & t & c & Ha & Hu & Ht & Hc & _).
      unfold transaction_outcome in Hrun.
      rewrite Ha, Hu, Ht, Hc, INSERT_note_cases in *. cbn [data tran scopeIdentity] in *.
      destruct (INT_MAX <? noteIdentity db + 1).
      { injection Hrun as <- <-. cbn [tran data account user note noteIdentity number].
        repeat (split; [reflexivity|]). split; [left; reflexivity|].
        right. split; [reflexivity|]. split; [lia|]. eexists. split; reflexivity. }
      destruct (pkNote_violation _ _).
      { injection Hrun as <- <-. cbn [tran data account user note noteIdentity number].
        repeat (split; [reflexivity|]). split; [right; reflexivity|].
        right. split; [reflexivity|]. split; [lia|]. eexists. split; reflexivity. }
      destruct (fkNote_Account_violation _ _).
      { injection Hrun as <- <-. cbn [tran data account user note noteIdentity number].
        repeat (split; [reflexivity|]). split; [right; reflexivity|].
        right. split; [reflexivity|]. split; [lia|]. eexists. split; reflexivity. }
      destruct (fkNote_User_violation _ _).
      { injection Hrun as <- <-. cbn [tran data account user note noteIdentity number].
        repeat (split; [reflexivity|]). split; [right; reflexivity|].
        right. split; [reflexivity|]. split; [lia|]. eexists. split; reflexivity. }
      discriminate Hrun.
Qed.

Lemma spNoteCreate_failure_effect_witness :
  invalid_input scenario_db (mkArgs (Some 1) (Some 5) (Some " ") (Some "x")) = true /\
  spNoteCreate scenario_clock (mkArgs (Some 1) (Some 5) (Some " ") (Some "x")) scenario_db
    = (inl (mkErr 51000 "titleRequired"), scenario_db) /\
  spNoteCreate_run scenario_clock groceries orphan_db
    = (inl (mkErr 547
         "The INSERT statement conflicted with the FOREIGN KEY constraint 'fkNote_Account'."),
       mkSession (mkDb [] [mkUser 5 1 false] [] 1) None None) /\
  note (mkDb [] [mkUser 5 1 false] [] 1) = note orphan_db /\
  (noteIdentity (mkDb [] [mkUser 5 1 false] [] 1) = noteIdentity orphan_db \/
   noteIdentity (mkDb [] [mkUser 5 1 false] [] 1) = noteIdentity orphan_db + 1).
Proof.
  split; [reflexivity|]. split.
  - destruct (proj1 (spNoteCreate_failure_effect scenario_clock
                       (mkArgs (Some 1) (Some 5) (Some " ") (Some "x")) scenario_db)
                    eq_refl) as (m & _ & _ & Hsp & Hm).
    rewrite Hsp, Hm; [reflexivity|].
    intros t Ht. injection Ht as <-. cbn. lia.
  - split; [reflexivity|].
    destruct (proj2 (spNoteCreate_failure_effect scenario_clock groceries orphan_db)
                    (mkErr 547
         "The INSERT statement conflicted with the FOREIGN KEY constraint 'fkNote_Account'.")
                    (mkSession (mkDb [] [mkUser 5 1 false] [] 1) None None) eq_refl)
      as (_ & _ & _ & Hnote & Hid & _).
    split; [exact Hnote|exact Hid].
Defined.

(** C2 as stated fails. On a store any sequence of calls can start from, a
    call that passes the validations and whose INSERT is rejected by
    fkNote_Account fails, is rolled back, and leaves a store other than the
    one it found: the identity value the INSERT took is not given back, and
    the next note created is numbered 2 where it would have been numbered 1.
    So a failed call is not always without effect on the store. Besides, an
    input of the fifth class, a title of 256 letters, is not rejected and a
    row is inserted. *)
Lemma failed_insert_spends_identifier :
  reachable orphan_db /\
  first_violation orphan_db groceries = None /\
  spNoteCreate scenario_clock groceries orphan_db
    = (inl (mkErr 547
         "The INSERT statement conflicted with the FOREIGN KEY constraint 'fkNote_Account'."),
       mkDb [] [mkUser 5 1 false] [] 1) /\
  mkDb [] [mkUser 5 1 false] [] 1 <> orphan_db /\
  fst (spNoteCreate scenario_clock groceries (mkDb [1] [mkUser 5 1 false] [] 0))
    = inr (Some 1) /\
  fst (spNoteCreate scenario_clock groceries (mkDb [1] [mkUser 5 1 false] [] 1))
    = inr (Some 2) /\
  ~ (forall env a db e,
       fst (spNoteCreate env a db) = inl e -> snd (spNoteCreate env a db) = db) /\
  (String.length (letters 256) = 256%nat /\
   note (snd (spNoteCreate scenario_clock
                (mkArgs (Some 1) (Some 5) (Some (letters 256)) (Some "x")) scenario_db))
     = [mkNote 1 1 5 (letters 255) "x" 1000 1000 false]) /\
  ~ (forall env a db t,
       arg_title a = Some t -> (255 < String.length t)%nat ->
       note (snd (spNoteCreate env a db)) = note db).
Proof.
  split; [apply reachable_empty|].
  split; [reflexivity|]. split; [reflexivity|]. split; [discriminate|].
  split; [reflexivity|]. split; [reflexivity|]. split; [|split].
  - intros H.
    pose proof (H scenario_clock groceries orphan_db _ eq_refl) as Heq.
    discriminate Heq.
  - split; vm_compute; reflexivity.
  - intros H.
    pose proof (H scenario_clock
                  (mkArgs (Some 1) (Some 5) (Some (letters 256)) (Some "x")) scenario_db
                  (letters 256) eq_refl ltac:(vm_compute; lia)) as Heq.
    vm_compute in Heq. discriminate Heq.
Qed.

(* ================================================================== *)
(** ** The order of the validations and long titles *)
(* ================================================================== *)

(** C3, evaluated. A call with account 1, a user 9 that does not exist, a
    title of 256 letters and the content 'x' violates the fifth and the
    sixth validation of the list and no earlier one, so the first violated
    validation is the one of the length; the call fails with
    [userDoesNotBelongToAccount], the condition of the later one. The same
    holds of every call whose title is longer than 255 characters, trailing
    spaces apart, and does not start with 255 spaces, whose content is not
    blank and for which no active user of the account exists. *)
Theorem later_check_raised_for_long_title :
  String.length (letters 256) = 256%nat /\
  map fst (validations scenario_db
             (mkArgs (Some 1) (Some 9) (Some (letters 256)) (Some "x")))
    = [false; false; false; false; true; true] /\
  first_of (validations scenario_db
              (mkArgs (Some 1) (Some 9) (Some (letters 256)) (Some "x")))
    = Some "titleExceedsMaxLength" /\
  spNoteCreate scenario_clock (mkArgs (Some 1) (Some 9) (Some (letters 256)) (Some "x"))
      scenario_db
    = (inl (mkErr 51000 "userDoesNotBelongToAccount"), scenario_db) /\
  (forall env db ia iu t c,
     255 < LEN t ->
     only_spaces (nvarchar 255 t) = false ->
     only_spaces c = false ->
     no_active_user db (mkArgs (Some ia) (Some iu) (Some t) (Some c)) = true ->
     first_of (validations db (mkArgs (Some ia) (Some iu) (Some t) (Some c)))
       = Some "titleExceedsMaxLength" /\
     spNoteCreate env (mkArgs (Some ia) (Some iu) (Some t) (Some c)) db
       = (inl (mkErr 51000 "userDoesNotBelongToAccount"), db)).
Proof.
  split; [vm_compute; reflexivity|].
  split; [vm_compute; reflexivity|].
  split; [vm_compute; reflexivity|].
  split; [vm_compute; reflexivity|].
  intros env db ia iu t c Hlen Ht Hc Huser. split.
  - unfold first_of, validations, input_validations.
    cbn [arg_idAccount arg_idUser arg_title arg_content is_null orb app find fst].
    rewrite !trimmed_is_empty_iff, Hc.
    destruct (only_spaces t) eqn:Hraw.
    + rewrite (only_spaces_nvarchar 255 t Hraw) in Ht. discriminate Ht.
    + unfold len_exceeds_255.
      replace (255 <? LEN t) with true by (symmetry; apply Z.ltb_lt; exact Hlen).
      reflexivity.
  - assert (Hv : first_violation db (mkArgs (Some ia) (Some iu) (Some t) (Some c))
                 = Some "userDoesNotBelongToAccount").
    { rewrite first_violation_present. unfold title_blank, content_blank.
      cbn [arg_title arg_content]. rewrite Ht, Hc, Huser. reflexivity. }
    unfold spNoteCreate. rewrite spNoteCreate_run_phases, Hv. reflexivity.
Qed.

Lemma later_check_raised_for_long_title_witness :
  255 < LEN (letters 300) /\
  no_active_user scenario_db (mkArgs (Some 1) (Some 7) (Some (letters 300)) (Some "x"))
    = true /\
  first_of (validations scenario_db
              (mkArgs (Some 1) (Some 7) (Some (letters 300)) (Some "x")))
    = Some "titleExceedsMaxLength" /\
  spNoteCreate scenario_clock (mkArgs (Some 1) (Some 7) (Some (letters 300)) (Some "x"))
      scenario_db
    = (inl (mkErr 51000 "userDoesNotBelongToAccount"), scenario_db).
Proof.
  destruct later_check_raised_for_long_title as (_ & _ & _ & _ & Hgeneral).
  assert (Hlen : 255 < LEN (letters 300)) by (vm_compute; reflexivity).
  split; [exact Hlen|]. split; [vm_compute; reflexivity|].
  apply (Hgeneral scenario_clock scenario_db 1 7 (letters 300) "x" Hlen).
  - vm_compute. reflexivity.
  - reflexivity.
  - vm_compute. reflexivity.
Defined.
